(** * Developer Efficiency Tracker: the data reconciliation and aggregation layer

    A shallow embedding of the parts of the tracker that load, normalise and
    aggregate efficiency entries:

    - [components/config.py]: the canonical column list [DB_COLUMNS];
    - [components/utils.py]: [get_week_dates], [verify_engineer_access],
      [get_team_excel_file];
    - [components/data_manager.py]: [DataManager.load_excel_data],
      [DataManager.save_to_excel];
    - [components/s3_data_manager.py]: [S3DataManager.load_excel_data],
      [get_data_manager];
    - [components/engineer_interface.py]: the data-entry form, [_save_entry]
      and the dashboard metrics;
    - [components/admin_interface.py]: [_aggregate_team_data] and
      [_render_key_metrics].

    Numbers are IEEE-754 binary64 values (Rocq's primitive floats), as in the
    float64 columns pandas computes with.  Python exceptions are explicit: a
    computation that can raise returns a [result]. *)

From Stdlib Require Import ZArith List String Ascii Bool Lia Floats Uint63.
From stdpp Require Import base option list strings pretty gmap.

Local Open Scope string_scope.
Local Open Scope list_scope.

(* ===================================================================== *)
(** ** Python values, exceptions                                          *)
(* ===================================================================== *)

Module Py.

(** The exception classes the modelled code can meet. *)
Inductive exn_kind :=
| KeyError | TypeError | ZeroDivisionError | ValueError
| FileNotFoundError | ClientError.

Record exn := Exn { exn_type : exn_kind; exn_msg : string }.

(** [str(e)] as used in the f-strings of the log messages. *)
Definition str (e : exn) : string := exn_msg e.

Inductive result (A : Type) :=
| Ok (a : A)
| Raise (e : exn).
Arguments Ok {A} a.
Arguments Raise {A} e.

Definition bind {A B} (m : result A) (k : A -> result B) : result B :=
  match m with
  | Ok a => k a
  | Raise e => Raise e
  end.

Definition is_ok {A} (m : result A) : bool :=
  match m with Ok _ => true | Raise _ => false end.

(** [isinstance(e, ClientError)] *)
Definition is_client_error (e : exn) : bool :=
  match exn_type e with ClientError => true | _ => false end.

End Py.

Import Py.

#[global] Instance result_ret : MRet result := @Ok.
#[global] Instance result_bind : MBind result := fun A B k m => Py.bind m k.

(* ===================================================================== *)
(** ** A model of the pandas objects the code manipulates                 *)
(* ===================================================================== *)

Module Pandas.

(** A calendar date, counted in days since 1970-01-01. *)
Definition date := Z.

(** One cell of a frame.  [pd.read_excel] yields numbers (a blank cell is
    the number NaN), text and timestamps; [.dt.date] yields dates and
    [NaT]. Timestamps count nanoseconds since the epoch. *)
Inductive cell :=
| CNum (x : float)
| CStr (s : string)
| CTime (ns : Z)
| CDate (d : date)
| CNaT.

Definition blank : cell := CNum nan.

Definition Series := list cell.

(** A frame: the length of its index and its columns, in order.  Every
    column of a frame holds [nrows] cells, and the labels are distinct
    ([pd.read_excel] renames a repeated header). *)
Record DataFrame := mkDataFrame {
  nrows : nat;
  cols : list (string * Series)
}.

(** [df.columns] *)
Definition columns (df : DataFrame) : list string := map fst (cols df).

(** [pd.DataFrame(columns=names)] *)
Definition empty_frame (names : list string) : DataFrame :=
  mkDataFrame 0 (map (fun c => (c, [])) names).

(** [len(df)] *)
Definition len (df : DataFrame) : nat := nrows df.

(** [df.empty]: some axis has length zero. *)
Definition empty (df : DataFrame) : bool :=
  (nrows df =? 0)%nat || (length (cols df) =? 0)%nat.

Fixpoint lookup_col (c : string) (l : list (string * Series)) : option Series :=
  match l with
  | [] => None
  | (k, s) :: l' => if String.eqb k c then Some s else lookup_col c l'
  end.

(** [col in df.columns] *)
Definition has_column (df : DataFrame) (c : string) : bool :=
  existsb (String.eqb c) (columns df).

(** [df[c]] *)
Definition getitem (df : DataFrame) (c : string) : result Series :=
  match lookup_col c (cols df) with
  | Some s => Ok s
  | None => Raise (Exn KeyError c)
  end.

Fixpoint replace_col (c : string) (s : Series) (l : list (string * Series))
  : list (string * Series) :=
  match l with
  | [] => []
  | (k, s0) :: l' =>
      if String.eqb k c then (k, s) :: l' else (k, s0) :: replace_col c s l'
  end.

(** [df[c] = s]: an existing column keeps its position, a new one goes
    last. *)
Definition setitem (df : DataFrame) (c : string) (s : Series) : DataFrame :=
  if has_column df c
  then mkDataFrame (nrows df) (replace_col c s (cols df))
  else mkDataFrame (nrows df) (cols df ++ [(c, s)]).

(** [df[c] = v] for a scalar [v], broadcast over the index. *)
Definition setitem_scalar (df : DataFrame) (c : string) (v : cell) : DataFrame :=
  setitem df c (repeat v (nrows df)).

(** [df.drop(c, axis=1)] *)
Definition drop (df : DataFrame) (c : string) : result DataFrame :=
  if has_column df c
  then Ok (mkDataFrame (nrows df)
             (List.filter (fun p => negb (String.eqb (fst p) c)) (cols df)))
  else Raise (Exn KeyError c).

Fixpoint select_cols (l : list (string * Series)) (names : list string)
  : result (list (string * Series)) :=
  match names with
  | [] => Ok []
  | c :: names' =>
      match lookup_col c l with
      | Some s => rest ← select_cols l names'; Ok ((c, s) :: rest)
      | None => Raise (Exn KeyError c)
      end
  end.

(** [df[names]] for a list of labels. *)
Definition select (df : DataFrame) (names : list string) : result DataFrame :=
  cs ← select_cols (cols df) names; Ok (mkDataFrame (nrows df) cs).

(** The cell of column [c] in row [i]. *)
Definition at_ (df : DataFrame) (i : nat) (c : string) : option cell :=
  match lookup_col c (cols df) with
  | Some s => nth_error s i
  | None => None
  end.

Fixpoint mask_filter {A} (mask : list bool) (l : list A) : list A :=
  match mask, l with
  | m :: mask', a :: l' =>
      if m then a :: mask_filter mask' l' else mask_filter mask' l'
  | _, _ => []
  end.

(** [df[mask]] for a boolean series [mask]: the rows where it holds. *)
Definition getitem_mask (df : DataFrame) (mask : list bool) : DataFrame :=
  mkDataFrame (length (mask_filter mask (seq 0 (nrows df))))
              (map (fun p => (fst p, mask_filter mask (snd p))) (cols df)).

(** One column of [pd.concat([a, b], ignore_index=True)]: the cells of
    [a], then those of [b], NaN where a frame lacks the column. *)
Definition concat_col (a b : DataFrame) (c : string) : string * Series :=
  (c, default (repeat (CNum nan) (nrows a)) (lookup_col c (cols a))
      ++ default (repeat (CNum nan) (nrows b)) (lookup_col c (cols b))).

(** [pd.concat([a, b], ignore_index=True)]: the columns of [a], then the
    columns only [b] has. *)
Definition concat2 (a b : DataFrame) : DataFrame :=
  let extra := List.filter (fun c => negb (has_column a c)) (columns b) in
  mkDataFrame (nrows a + nrows b)
              (map (concat_col a b) (columns a ++ extra)).

(** [pd.concat(frames, ignore_index=True)] for a non-empty list. *)
Definition concat (frames : list DataFrame) : result DataFrame :=
  match frames with
  | [] => Raise (Exn ValueError "No objects to concatenate")
  | f :: rest => Ok (fold_left concat2 rest f)
  end.

(** [pd.DataFrame([row])] for one dict [row]. *)
Definition of_row (row : list (string * cell)) : DataFrame :=
  mkDataFrame 1 (map (fun kv => (fst kv, [snd kv])) row).

(** *** Library behaviour taken as given

    What [pd.to_datetime] makes of a text or of a number that is not NaN
    ([None]: it raises), and what [strftime('%Y-%m-%d')] prints for a
    date, are the libraries' business; the code is modelled over them. *)
Record runtime := mkRuntime {
  parse_datetime : string -> option Z;
  datetime_of_number : float -> option Z;
  strftime_ymd : date -> string
}.

Definition ns_per_day : Z := 86400000000000%Z.

(** One element of [pd.to_datetime(series)]: a timestamp or [NaT]. *)
Definition to_datetime_cell (rt : runtime) (c : cell) : result cell :=
  match c with
  | CTime t => Ok (CTime t)
  | CNaT => Ok CNaT
  | CDate d => Ok (CTime (d * ns_per_day)%Z)
  | CNum x =>
      if PrimFloat.is_nan x then Ok CNaT
      else match datetime_of_number rt x with
           | Some t => Ok (CTime t)
           | None => Raise (Exn ValueError "cannot convert number to datetime")
           end
  | CStr s =>
      match parse_datetime rt s with
      | Some t => Ok (CTime t)
      | None => Raise (Exn ValueError ("Unknown datetime string format: " +:+ s))
      end
  end.

Fixpoint traverse {A B} (f : A -> result B) (l : list A) : result (list B) :=
  match l with
  | [] => Ok []
  | a :: l' => b ← f a; bs ← traverse f l'; Ok (b :: bs)
  end.

(** [pd.to_datetime(s)] *)
Definition to_datetime (rt : runtime) (s : Series) : result Series :=
  traverse (to_datetime_cell rt) s.

(** [.dt.date] on a series of timestamps: the calendar day, the time of
    day dropped. *)
Definition dt_date_cell (c : cell) : result cell :=
  match c with
  | CTime t => Ok (CDate (t / ns_per_day)%Z)
  | CNaT => Ok CNaT
  | _ => Raise (Exn TypeError "Can only use .dt accessor with datetimelike values")
  end.

Definition dt_date (s : Series) : result Series := traverse dt_date_cell s.

(** [x + pd.Timedelta(days=n)] on one cell. *)
Definition add_days_cell (n : Z) (c : cell) : result cell :=
  match c with
  | CDate d => Ok (CDate (d + n)%Z)
  | CTime t => Ok (CTime (t + n * ns_per_day)%Z)
  | CNaT => Ok CNaT
  | _ => Raise (Exn TypeError "unsupported operand type(s) for +")
  end.

(** [s + pd.Timedelta(days=n)] *)
Definition add_days (s : Series) (n : Z) : result Series :=
  traverse (add_days_cell n) s.

(** *** Arithmetic on columns *)

Definition is_num (c : cell) : bool :=
  match c with CNum _ => true | _ => false end.

Definition num_value (c : cell) : float :=
  match c with CNum x => x | _ => nan end.

(** A column of numbers (and blanks) is a float64 column; one that holds
    anything else has dtype [object]. *)
Definition is_float64 (s : Series) : bool := forallb is_num s.

(** Division of two [object] columns goes cell by cell with Python's own
    [/], which refuses a zero divisor and anything that is not a
    number. *)
Fixpoint object_truediv (a b : Series) : result (list float) :=
  match a, b with
  | x :: a', y :: b' =>
      match x, y with
      | CNum u, CNum v =>
          if PrimFloat.is_zero v then Raise (Exn ZeroDivisionError "float division by zero")
          else rest ← object_truediv a' b'; Ok ((u / v)%float :: rest)
      | _, _ => Raise (Exn TypeError "unsupported operand type(s) for /")
      end
  | _, _ => Ok []
  end.

Fixpoint float_truediv (a b : list float) : list float :=
  match a, b with
  | u :: a', v :: b' => (u / v)%float :: float_truediv a' b'
  | _, _ => []
  end.

(** [a / b] for two columns of one frame.  float64 columns divide as
    IEEE-754 prescribes: [x / 0] is an infinity or NaN, never an error. *)
Definition truediv (a b : Series) : result (list float) :=
  if is_float64 a && is_float64 b
  then Ok (float_truediv (map num_value a) (map num_value b))
  else object_truediv a b.

(** [s * k] for a float64 series. *)
Definition mul_scalar (s : list float) (k : float) : list float :=
  map (fun x => (x * k)%float) s.

(** The float64 value of a count. *)
Definition float_of_nat (n : nat) : float :=
  PrimFloat.of_uint63 (Uint63.of_Z (Z.of_nat n)).

(** numpy's sum of a float64 array, accumulated from [0.0] in index
    order. *)
Definition np_sum (xs : list float) : float :=
  fold_left (fun acc x => (acc + x)%float) xs 0%float.

(** [Series.mean()] of a float64 series ([skipna=True]): NaN entries are
    left out of the sum and of the count; with nothing left the mean is
    NaN. *)
Definition mean (xs : list float) : float :=
  let kept := List.filter (fun x => negb (PrimFloat.is_nan x)) xs in
  let count := length kept in
  if (0 <? count)%nat then (np_sum kept / float_of_nat count)%float else nan.

(** [Series.sum()] of a float64 series ([skipna=True]). *)
Definition sum (xs : list float) : float :=
  np_sum (List.filter (fun x => negb (PrimFloat.is_nan x)) xs).

(** [s == v] against a text [v]: a cell that is not that text, a blank
    one included, compares [False]. *)
Definition eq_str (s : Series) (v : string) : list bool :=
  map (fun c => match c with CStr t => String.eqb t v | _ => false end) s.

(** [.mean()] of a boolean series: the share of [True] among all its
    entries (a boolean series has no missing entry to skip). *)
Definition mean_bool (bs : list bool) : float :=
  let count := length bs in
  if (0 <? count)%nat
  then (np_sum (map (fun b : bool => if b then 1%float else 0%float) bs)
        / float_of_nat count)%float
  else nan.

End Pandas.

Import Pandas.

(* ===================================================================== *)
(** ** components/config.py                                               *)
(* ===================================================================== *)

Module Config.

Definition DB_COLUMNS : list string :=
  [ "Week_Start"; "Week_End"; "Story_ID"; "Developer_Name"; "Team_Name";
    "Original_Estimate_Hours"; "Efficiency_Gained_Hours"; "Copilot_Used";
    "Category"; "Areas_of_Efficiency"; "Notes_Observations" ].


End Config.

(* ===================================================================== *)
(** ** components/utils.py                                                *)
(* ===================================================================== *)

Module Utils.

(** [date.weekday()]: Monday is 0; 1970-01-01 was a Thursday. *)
Definition weekday (d : date) : Z := ((d + 3) mod 7)%Z.

Definition get_week_dates (d : date) : date * date :=
  let monday := (d - weekday d)%Z in
  let sunday := (monday + 6)%Z in
  (monday, sunday).

Definition verify_engineer_access
    (developer_name team_name : string) (provided_token : option string) : bool :=
  true.

(** [s.replace(old, new)] for one-character [old] and [new]. *)
Fixpoint replace (old new : ascii) (s : string) : string :=
  match s with
  | EmptyString => EmptyString
  | String c s' =>
      String (if Ascii.eqb c old then new else c) (replace old new s')
  end.

Definition get_team_excel_file (team_name : string) : string :=
  "efficiency_data_" +:+ replace " " "_" team_name +:+ ".xlsx".

End Utils.

(* ===================================================================== *)
(** ** Stored files                                                       *)
(* ===================================================================== *)

(** What a stored file is to [pd.read_excel]: a workbook, read as the frame
    of its first sheet, or bytes it cannot read, on which it raises. *)
Inductive file :=
| Workbook (df : DataFrame)
| Unreadable (e : exn).

Definition read_excel (f : file) : result DataFrame :=
  match f with
  | Workbook df => Ok df
  | Unreadable e => Raise e
  end.

(** The loop both loaders run over the required columns:
    [for col in names: if col not in df.columns: df[col] = ''] *)
Definition ensure_columns (names : list string) (df : DataFrame) : DataFrame :=
  fold_left
    (fun df col => if has_column df col then df else setitem_scalar df col (CStr ""))
    names df.

(* ===================================================================== *)
(** ** components/data_manager.py                                         *)
(* ===================================================================== *)

Module DataManager.

(** The local disk: the files under their paths. *)
Abbreviation disk := (gmap string file).

Definition create_empty_dataframe : DataFrame :=
  empty_frame Config.DB_COLUMNS.

(** [os.path.exists(file_path)] *)
Definition os_path_exists (fs : disk) (file_path : string) : bool :=
  bool_decide (is_Some (fs !! file_path)).

(** [pd.read_excel(file_path)] *)
Definition read_excel_path (fs : disk) (file_path : string) : result DataFrame :=
  match fs !! file_path with
  | Some f => read_excel f
  | None => Raise (Exn FileNotFoundError file_path)
  end.

(** The old single [Week] column becomes [Week_Start] and [Week_End]. *)
Definition convert_old_format (rt : runtime) (df : DataFrame) : result DataFrame :=
  if has_column df "Week" && negb (has_column df "Week_Start") then
    week ← getitem df "Week";
    stamps ← to_datetime rt week;
    starts ← dt_date stamps;
    let df := setitem df "Week_Start" starts in
    week_start ← getitem df "Week_Start";
    ends ← add_days week_start 6;
    let df := setitem df "Week_End" ends in
    drop df "Week"
  else Ok df.

(** The body of the [try] block. *)
Definition load_excel_data_try (rt : runtime) (fs : disk) (file_path : string)
  : result DataFrame :=
  df ← read_excel_path fs file_path;
  df ← convert_old_format rt df;
  let df := ensure_columns Config.DB_COLUMNS df in
  select df Config.DB_COLUMNS.

(** [load_excel_data(file_path)]: the frame returned and the lines
    printed. *)
Definition load_excel_data (rt : runtime) (fs : disk) (file_path : string)
  : DataFrame * list string :=
  if negb (os_path_exists fs file_path) then (create_empty_dataframe, [])
  else
    match load_excel_data_try rt fs file_path with
    | Ok df => (df, [])
    | Raise e =>
        (create_empty_dataframe,
         ["Error loading " +:+ file_path +:+ ": " +:+ Py.str e])
    end.

(** [save_to_excel(df, file_path)]: the disk afterwards and the value
    returned. *)
Definition save_to_excel (fs : disk) (df : DataFrame) (file_path : string)
  : disk * bool :=
  (<[file_path := Workbook df]> fs, true).

End DataManager.

(* ===================================================================== *)
(** ** components/s3_data_manager.py                                      *)
(* ===================================================================== *)

Module S3DataManager.

(** The bucket: the objects under their keys. *)
Abbreviation bucket := (gmap string file).

Inductive level := INFO | WARNING | ERROR.
Definition log := list (level * string).

Definition create_empty_dataframe : DataFrame :=
  empty_frame
    [ "Week_Start"; "Week_End"; "Story_ID"; "Developer_Name"; "Team_Name";
      "Original_Estimate_Hours"; "Efficiency_Gained_Hours"; "Copilot_Used";
      "Category"; "Areas_of_Efficiency"; "Notes_Observations" ].

(** [s3_client.head_object(Bucket=..., Key=filename)] *)
Definition head_object (b : bucket) (filename : string) : result unit :=
  match b !! filename with
  | Some _ => Ok tt
  | None => Raise (Exn ClientError "Not Found")
  end.

(** [s3_client.get_object(Bucket=..., Key=filename)] *)
Definition get_object (b : bucket) (filename : string) : result file :=
  match b !! filename with
  | Some f => Ok f
  | None => Raise (Exn ClientError "NoSuchKey")
  end.

(** [file_exists]: [head_object] answers or raises [ClientError]. *)
Definition file_exists (b : bucket) (filename : string) : bool :=
  match head_object b filename with
  | Ok _ => true
  | Raise _ => false
  end.

(** The compatibility step for old data: both new columns are the old
    one ("For old data, use same date"); [Week] stays. *)
Definition convert_old_format (df : DataFrame) : result DataFrame :=
  if has_column df "Week" && negb (has_column df "Week_Start") then
    week ← getitem df "Week";
    let df := setitem df "Week_Start" week in
    week ← getitem df "Week";
    let df := setitem df "Week_End" week in
    Ok df
  else Ok df.

(** The body of the [try] block. *)
Definition load_excel_data_try (b : bucket) (filename : string)
  : result (DataFrame * log) :=
  if negb (file_exists b filename) then
    Ok (create_empty_dataframe,
        [(INFO, "File " +:+ filename +:+ " doesn't exist, returning empty DataFrame")])
  else
    response ← get_object b filename;
    df ← read_excel response;
    df ← convert_old_format df;
    let expected_columns := columns create_empty_dataframe in
    let df := ensure_columns expected_columns df in
    Ok (df, [(INFO, "Loaded " +:+ pretty (len df) +:+ " rows from " +:+ filename)]).

Definition load_excel_data (b : bucket) (filename : string) : DataFrame * log :=
  match load_excel_data_try b filename with
  | Ok r => r
  | Raise e =>
      if is_client_error e
      then (create_empty_dataframe,
            [(ERROR, "Error loading data from S3: " +:+ Py.str e)])
      else (create_empty_dataframe,
            [(ERROR, "Unexpected error loading data: " +:+ Py.str e)])
  end.

(** [save_to_excel(df, filename)]: the bucket afterwards and the value
    returned. *)
Definition save_to_excel (b : bucket) (df : DataFrame) (filename : string)
  : bucket * bool :=
  (<[filename := Workbook df]> b, true).

End S3DataManager.

(** *** The factory [get_data_manager] *)

Inductive data_manager :=
| LocalManager
| S3Manager.


(** Loading and saving through whichever manager the factory returned; both
    keep their files in a store of the same shape. *)
Definition load_via (rt : runtime) (m : data_manager) (st : gmap string file)
    (key : string) : DataFrame :=
  match m with
  | LocalManager => fst (DataManager.load_excel_data rt st key)
  | S3Manager => fst (S3DataManager.load_excel_data st key)
  end.

Definition save_via (m : data_manager) (st : gmap string file) (df : DataFrame)
    (key : string) : gmap string file * bool :=
  match m with
  | LocalManager => DataManager.save_to_excel st df key
  | S3Manager => S3DataManager.save_to_excel st df key
  end.

(* ===================================================================== *)
(** ** components/engineer_interface.py                                   *)
(* ===================================================================== *)

Module EngineerInterface.

Record t := mkEngineer {
  developer_name : string;
  team_name : string;
  team_file : string;
  manager : data_manager
}.

(** [__init__] *)
Definition init (developer_name team_name : string) (m : data_manager) : t :=
  mkEngineer developer_name team_name (Utils.get_team_excel_file team_name) m.

(** What the widgets of the entry form hold when "Save Entry" is pressed.
    [time_saved] and [checked_areas] are the widgets shown only while
    "Used Copilot?" is "Yes". *)
Record form := mkForm {
  week_date : date;
  copilot_used : string;
  category : string;
  checked_areas : list string;
  story_id : string;
  original_estimate : float;
  time_saved : float;
  notes : string
}.

(** The [selectbox] offers these two values. *)
Definition copilot_options : list string := ["Yes"; "No"].

Definition selected_areas (f : form) : list string :=
  if String.eqb (copilot_used f) "Yes" then checked_areas f else [].

(** "When Copilot wasn't used, set efficiency gained to 0". *)
Definition efficiency_gained (f : form) : float :=
  if String.eqb (copilot_used f) "Yes" then time_saved f else 0%float.

Definition is_empty_string (s : string) : bool :=
  match s with EmptyString => true | _ => false end.

(** The messages of the rules the entry breaks, all of them. *)
Definition error_messages (f : form) : list string :=
  (if is_empty_string (story_id f) then ["Story ID is required"] else [])
  ++ (if (original_estimate f <=? 0)%float
      then ["Original Estimate must be greater than 0"] else [])
  ++ (if String.eqb (copilot_used f) "Yes"
         && (length (selected_areas f) =? 0)%nat
      then ["Please select at least one efficiency area when Copilot was used"]
      else []).

Definition validation_passed (f : form) : bool :=
  (length (error_messages f) =? 0)%nat.

(** The dict [new_row] of [_save_entry]. *)
Definition new_row (rt : runtime) (self : t)
    (selected_monday selected_sunday : date) (story_id : string)
    (original_estimate efficiency_gained : float) (copilot_used category : string)
    (selected_areas : list string) (notes : string) : list (string * cell) :=
  [ ("Week_Start", CStr (strftime_ymd rt selected_monday));
    ("Week_End", CStr (strftime_ymd rt selected_sunday));
    ("Story_ID", CStr story_id);
    ("Developer_Name", CStr (developer_name self));
    ("Team_Name", CStr (team_name self));
    ("Original_Estimate_Hours", CNum original_estimate);
    ("Efficiency_Gained_Hours", CNum efficiency_gained);
    ("Copilot_Used", CStr copilot_used);
    ("Category", CStr category);
    ("Areas_of_Efficiency", CStr (String.concat ", " selected_areas));
    ("Notes_Observations", CStr notes) ].

(** [_save_entry]: the store afterwards and the value returned. *)
Definition _save_entry (rt : runtime) (self : t) (st : gmap string file)
    (df : DataFrame) (selected_monday selected_sunday : date) (story_id : string)
    (original_estimate efficiency_gained : float) (copilot_used category : string)
    (selected_areas : list string) (notes : string) : gmap string file * bool :=
  let row := new_row rt self selected_monday selected_sunday story_id
               original_estimate efficiency_gained copilot_used category
               selected_areas notes in
  let df := concat2 df (of_row row) in
  save_via (manager self) st df (team_file self).

Inductive outcome :=
| Saved
| SaveFailed
| Rejected (errors : list string).

(** [_render_data_entry] when the form is submitted. *)
Definition _render_data_entry (rt : runtime) (self : t) (st : gmap string file)
    (f : form) : gmap string file * outcome :=
  let df := load_via rt (manager self) st (team_file self) in
  let '(selected_monday, selected_sunday) := Utils.get_week_dates (week_date f) in
  if validation_passed f then
    let '(st', success) :=
      _save_entry rt self st df selected_monday selected_sunday (story_id f)
        (original_estimate f) (efficiency_gained f) (copilot_used f)
        (category f) (selected_areas f) (notes f) in
    (st', if success then Saved else SaveFailed)
  else (st, Rejected (error_messages f)).

(** The "Average Efficiency" of [_render_dashboard]:
    [(df['Efficiency_Gained_Hours'] / df['Original_Estimate_Hours'] * 100).mean()] *)
Definition avg_efficiency (engineer_df : DataFrame) : result float :=
  gained ← getitem engineer_df "Efficiency_Gained_Hours";
  estimate ← getitem engineer_df "Original_Estimate_Hours";
  ratio ← truediv gained estimate;
  Ok (mean (mul_scalar ratio 100)).

(** [_render_dashboard], as far as the metric goes: nothing is shown for
    an empty frame. *)
Definition _render_dashboard (engineer_df : DataFrame) : result (option float) :=
  if empty engineer_df then Ok None
  else v ← avg_efficiency engineer_df; Ok (Some v).

(** The frame [render] hands to the dashboard: the developer's own rows. *)
Definition engineer_df (self : t) (df : DataFrame) : result DataFrame :=
  if negb (empty df) then
    names ← getitem df "Developer_Name";
    Ok (getitem_mask df (eq_str names (developer_name self)))
  else Ok (mkDataFrame 0 []).

(** [render], as far as the "My Data" tab goes. *)
Definition render (rt : runtime) (self : t) (st : gmap string file)
  : result (option float) :=
  let df := load_via rt (manager self) st (team_file self) in
  edf ← engineer_df self df;
  _render_dashboard edf.

End EngineerInterface.

(* ===================================================================== *)
(** ** components/admin_interface.py                                      *)
(* ===================================================================== *)

Module AdminDashboardPage.

Record team_stat := mkStat {
  entries : nat;
  stat_avg_efficiency : float;
  stat_copilot_usage : float
}.

(** "Average Efficiency" of [_render_key_metrics]. *)
Definition avg_efficiency (combined_df : DataFrame) : result float :=
  gained ← getitem combined_df "Efficiency_Gained_Hours";
  estimate ← getitem combined_df "Original_Estimate_Hours";
  ratio ← truediv gained estimate;
  Ok (mean (mul_scalar ratio 100)).

(** "Copilot Usage Rate" of [_render_key_metrics]:
    [(df['Copilot_Used'] == 'Yes').mean() * 100] *)
Definition copilot_usage (combined_df : DataFrame) : result float :=
  used ← getitem combined_df "Copilot_Used";
  Ok (mean_bool (eq_str used "Yes") * 100)%float.

(** The entry of [team_stats] for one team frame. *)
Definition team_stats_of (team_df : DataFrame) : result team_stat :=
  gained ← getitem team_df "Efficiency_Gained_Hours";
  estimate ← getitem team_df "Original_Estimate_Hours";
  ratio ← truediv gained estimate;
  used ← getitem team_df "Copilot_Used";
  Ok (mkStat (len team_df)
             (mean (mul_scalar ratio 100))
             (mean_bool (eq_str used "Yes") * 100)%float).

(** [_aggregate_team_data]: the frames of the teams that have entries and
    the statistics of each, in the order of [teams_config]. *)
Fixpoint _aggregate_team_data (rt : runtime) (m : data_manager)
    (st : gmap string file) (teams : list string)
  : result (list DataFrame * list (string * team_stat)) :=
  match teams with
  | [] => Ok ([], [])
  | team_name :: teams' =>
      let team_file := Utils.get_team_excel_file team_name in
      let team_df := load_via rt m st team_file in
      if negb (empty team_df) then
        stat ← team_stats_of team_df;
        '(all_data, team_stats) ← _aggregate_team_data rt m st teams';
        Ok (team_df :: all_data, (team_name, stat) :: team_stats)
      else _aggregate_team_data rt m st teams'
  end.

(** [render_dashboard], as far as the two rates go: [None] when a warning
    is shown instead of metrics. *)
Definition render_dashboard (rt : runtime) (m : data_manager)
    (st : gmap string file) (teams : list string)
  : result (option (float * float)) :=
  if (length teams =? 0)%nat then Ok None
  else
    '(all_data, team_stats) ← _aggregate_team_data rt m st teams;
    if (length all_data =? 0)%nat then Ok None
    else
      combined_df ← concat all_data;
      avg ← avg_efficiency combined_df;
      usage ← copilot_usage combined_df;
      Ok (Some (avg, usage)).

End AdminDashboardPage.

Module DataManagementPage.

(** The loop of [_render_export_section]: the frames of the selected teams
    that have entries. *)
Fixpoint combined_data (rt : runtime) (m : data_manager) (st : gmap string file)
    (selected_teams : list string) : list DataFrame :=
  match selected_teams with
  | [] => []
  | team_name :: rest =>
      let team_file := Utils.get_team_excel_file team_name in
      let team_df := load_via rt m st team_file in
      if negb (empty team_df) then team_df :: combined_data rt m st rest
      else combined_data rt m st rest
  end.

(** What the export section shows: nothing while no team is selected, a
    warning when the selected teams have no data, or the combined frame
    offered for download with the two counts of the "Ready to download"
    line. *)
Inductive export :=
| NothingSelected
| NoData
| Ready (combined_df : DataFrame) (entries teams : nat).

Definition _render_export_section (rt : runtime) (m : data_manager)
    (st : gmap string file) (selected_teams : list string) : result export :=
  if (length selected_teams =? 0)%nat then Ok NothingSelected
  else
    let data := combined_data rt m st selected_teams in
    if (length data =? 0)%nat then Ok NoData
    else
      combined_df ← concat data;
      Ok (Ready combined_df (len combined_df) (length selected_teams)).

End DataManagementPage.

(* ===================================================================== *)
(** ** Team configuration and access routing                              *)
(* ===================================================================== *)

(** The values a configuration manager can hand back ([json.loads] output,
    or the dict built from the spreadsheet): text, lists, dicts, and
    anything else (numbers, [None], booleans), which is neither iterable
    nor indexable by text.  A dict key is a text or something else, which
    no text equals. *)
Module PyValue.

Inductive key :=
| KStr (s : string)
| KOther.

#[local] Unset Elimination Schemes.
Inductive t :=
| VStr (s : string)
| VList (items : list t)
| VDict (entries : list (key * t))
| VOther.
#[local] Set Elimination Schemes.

(** [d.get(k)] for a text [k]: the value under the first equal key (the
    keys of a dict are distinct). *)
Fixpoint dict_get (k : string) (d : list (key * t)) : option t :=
  match d with
  | [] => None
  | (KStr k', v) :: d' => if String.eqb k' k then Some v else dict_get k d'
  | (KOther, _) :: d' => dict_get k d'
  end.

(** [x == name] for a text [name]. *)
Definition eq_str (x : t) (name : string) : bool :=
  match x with VStr s => String.eqb s name | _ => false end.

(** [needle in hay] for two texts: a substring test. *)
Fixpoint str_in (needle hay : string) : bool :=
  String.prefix needle hay
  || match hay with
     | EmptyString => false
     | String _ hay' => str_in needle hay'
     end.

(** [name in v] for a text [name]. *)
Definition contains (name : string) (v : t) : result bool :=
  match v with
  | VList items => Ok (existsb (fun x => eq_str x name) items)
  | VDict d => Ok (match dict_get name d with Some _ => true | None => false end)
  | VStr s => Ok (str_in name s)
  | VOther => Raise (Exn TypeError "argument is not iterable")
  end.

(** [v[k]] for a text [k]. *)
Definition getitem (v : t) (k : string) : result t :=
  match v with
  | VDict d =>
      match dict_get k d with
      | Some x => Ok x
      | None => Raise (Exn KeyError k)
      end
  | _ => Raise (Exn TypeError "indices must be integers")
  end.

End PyValue.

Module TeamSetupPage.

(** The dict kept for a developer. *)
Record developer := mkDeveloper {
  name : string;
  email : string;
  link : string
}.

(** [teams_config] as the admin pages build it: team name to the list of
    its developers, in insertion order. *)
Definition teams_config := list (string * list developer).

Fixpoint lookup_team (team_name : string) (cfg : teams_config)
  : option (list developer) :=
  match cfg with
  | [] => None
  | (k, devs) :: cfg' =>
      if String.eqb k team_name then Some devs else lookup_team team_name cfg'
  end.

(** [self.teams_config[team_name].append(developer)] *)
Fixpoint append_developer (team_name : string) (dev : developer)
    (cfg : teams_config) : teams_config :=
  match cfg with
  | [] => []
  | (k, devs) :: cfg' =>
      if String.eqb k team_name then (k, devs ++ [dev]) :: cfg'
      else (k, devs) :: append_developer team_name dev cfg'
  end.

Inductive outcome :=
| Success
| SaveFailed
| AlreadyExists
| NameRequired.

(** The "Create Team" button; [saved] is what [save_teams_config]
    returns. *)
Definition create_team (cfg : teams_config) (team_name : string) (saved : bool)
  : teams_config * outcome :=
  if negb (EngineerInterface.is_empty_string team_name) then
    match lookup_team team_name cfg with
    | None =>
        (cfg ++ [(team_name, [])], if saved then Success else SaveFailed)
    | Some _ => (cfg, AlreadyExists)
    end
  else (cfg, NameRequired).

(** The "Add Developer" button of the editor of [team_name];
    [access_link] is what [generate_engineer_link] made of the two
    names. *)
Definition add_developer (cfg : teams_config) (team_name dev_name dev_email
    access_link : string) (saved : bool) : teams_config * outcome :=
  if negb (EngineerInterface.is_empty_string dev_name) then
    (append_developer team_name (mkDeveloper dev_name dev_email access_link) cfg,
     if saved then Success else SaveFailed)
  else (cfg, NameRequired).

(** The configuration as the Python value the routing code inspects. *)
Definition developer_value (d : developer) : PyValue.t :=
  PyValue.VDict [ (PyValue.KStr "name", PyValue.VStr (name d));
                  (PyValue.KStr "email", PyValue.VStr (email d));
                  (PyValue.KStr "link", PyValue.VStr (link d)) ].

Definition teams_config_value (cfg : teams_config) : PyValue.t :=
  PyValue.VDict
    (map (fun kv => (PyValue.KStr (fst kv),
                     PyValue.VList (map developer_value (snd kv)))) cfg).

End TeamSetupPage.

(** ** app.py *)

Module App.

(** [st.query_params]: the parameters of the URL, text to text. *)
Definition query_params := list (string * string).

Fixpoint param (k : string) (params : query_params) : option string :=
  match params with
  | [] => None
  | (k', v) :: params' => if String.eqb k' k then Some v else param k params'
  end.

(** The developers of a team, in the old and the new shape of the
    configuration. *)
Definition developers_of (team_config : PyValue.t) : result PyValue.t :=
  match team_config with
  | PyValue.VDict d =>
      match PyValue.dict_get "developers" d with
      | Some _ => PyValue.getitem team_config "developers"
      | None => Ok (PyValue.VList [])
      end
  | PyValue.VList items =>
      names ← traverse
                (fun dev => match dev with
                            | PyValue.VDict _ => PyValue.getitem dev "name"
                            | _ => Ok dev
                            end) items;
      Ok (PyValue.VList names)
  | _ => Ok (PyValue.VList [])
  end.

(** The body of the [try] block of [parse_engineer_link]; [teams_config]
    is what [load_teams_config] returned. *)
Definition parse_engineer_link_try (params : query_params)
    (teams_config : PyValue.t) : result (option (string * string)) :=
  match param "dev" params, param "team" params with
  | Some developer_name, Some team_name =>
      known ← PyValue.contains team_name teams_config;
      if known : bool then
        team_config ← PyValue.getitem teams_config team_name;
        developers ← developers_of team_config;
        listed ← PyValue.contains developer_name developers;
        if listed : bool then Ok (Some (developer_name, team_name)) else Ok None
      else Ok None
  | _, _ => Ok None
  end.

(** [parse_engineer_link()]: [None] stands for the pair [(None, None)]. *)
Definition parse_engineer_link (params : query_params) (teams_config : PyValue.t)
  : option (string * string) :=
  match parse_engineer_link_try params teams_config with
  | Ok r => r
  | Raise _ => None
  end.

End App.

(** ** components/data_manager.py: the settings sheet *)

Module TeamSettingsManager.

Record settings := mkSettings {
  categories : list string;
  efficiency_areas : list string;
  category_efficiency_mapping : list (string * list string)
}.

(** [pd.DataFrame({name: values, ...})]: the columns must be of one
    length. *)
Definition frame_of_columns (columns : list (string * Series)) : result DataFrame :=
  match columns with
  | [] => Ok (mkDataFrame 0 [])
  | (_, first) :: _ =>
      if forallb (fun p => (length (snd p) =? length first)%nat) columns
      then Ok (mkDataFrame (length first) columns)
      else Raise (Exn ValueError "All arrays must be of the same length")
  end.

Definition text_column (l : list string) : Series := map CStr l.

(** The frame [save_team_settings] builds and writes: the three lists side
    by side, the shorter ones padded with empty text. *)
Definition settings_frame (s : settings) : result DataFrame :=
  let mapping_data := category_efficiency_mapping s in
  let max_len :=
    Nat.max (Nat.max (length (categories s)) (length (efficiency_areas s)))
            (length mapping_data) in
  let categories := categories s ++ repeat "" (max_len - length (categories s)) in
  let efficiency_areas :=
    efficiency_areas s ++ repeat "" (max_len - length (efficiency_areas s)) in
  let category_mapping := map fst mapping_data in
  let mapped_areas := map (fun kv => String.concat ", " (snd kv)) mapping_data in
  let category_mapping :=
    category_mapping ++ repeat "" (max_len - length category_mapping) in
  let mapped_areas := mapped_areas ++ repeat "" (max_len - length mapped_areas) in
  frame_of_columns
    [ ("Categories", text_column categories);
      ("Efficiency_Areas", text_column efficiency_areas);
      ("Category_Mapping", text_column category_mapping);
      ("Mapped_Areas", text_column mapped_areas) ].

End TeamSettingsManager.


(* ===================================================================== *)
(** ** Vocabulary of the properties                                       *)
(* ===================================================================== *)

(** *** The "Platform Team" scenario: Grace Lee's two entries *)

Module Scenario.

(** Monday 2024-01-01, in days and in nanoseconds since the epoch. *)
Definition monday : date := 19723%Z.
Definition monday_ns : Z := 1704067200000000000%Z.

(** A runtime for worked examples: [pd.to_datetime] reads the one text
    "2024-01-01" and refuses every other text and every number;
    [strftime] prints that Monday and the Sunday after it. *)
Definition rt : runtime :=
  mkRuntime
    (fun s => if String.eqb s "2024-01-01" then Some monday_ns else None)
    (fun _ => None)
    (fun d => if (d =? monday)%Z then "2024-01-01"
              else if (d =? monday + 6)%Z then "2024-01-07" else "").

(** A sheet in the old layout, as [sample_data_generator.py] writes it: one
    [Week] column holding the date as text, and columns the tracker does
    not know. *)
Definition legacy_df : DataFrame :=
  mkDataFrame 1
    [ ("Week", [CStr "2024-01-01"]);
      ("Story_ID", [CStr "ENG-1542"]);
      ("Developer_Name", [CStr "Grace Lee"]);
      ("Team_Name", [CStr "Platform Team"]);
      ("Technology", [CStr "Python"]);
      ("Original_Estimate_Hours", [CNum 8]);
      ("Efficiency_Gained_Hours", [CNum 0.5]);
      ("Copilot_Used", [CStr "No"]) ].

Definition legacy_store : gmap string file :=
  {[ "efficiency_data_Platform_Team.xlsx" := Workbook legacy_df ]}.

Definition grace (m : data_manager) : EngineerInterface.t :=
  EngineerInterface.init "Grace Lee" "Platform Team" m.

Definition entry (story : string) (estimate gained : float) (used : string)
  : list (string * cell) :=
  [ ("Week_Start", CStr "2024-01-01");
    ("Week_End", CStr "2024-01-07");
    ("Story_ID", CStr story);
    ("Developer_Name", CStr "Grace Lee");
    ("Team_Name", CStr "Platform Team");
    ("Original_Estimate_Hours", CNum estimate);
    ("Efficiency_Gained_Hours", CNum gained);
    ("Copilot_Used", CStr used);
    ("Category", CStr "Testing");
    ("Areas_of_Efficiency", CStr "");
    ("Notes_Observations", CStr "") ].

(** The partition of the team: (estimate=10, gained=3, used=Yes) and
    (estimate=5, gained=0, used=No). *)
Definition team_df : DataFrame :=
  concat2 (of_row (entry "ENG-1" 10 3 "Yes")) (of_row (entry "ENG-2" 5 0 "No")).

Definition store : gmap string file :=
  {[ Utils.get_team_excel_file "Platform Team" := Workbook team_df ]}.

(** Two entries, the second with nothing entered under [Copilot_Used]. *)
Definition blank_used_df : DataFrame :=
  concat2 (of_row (entry "ENG-1" 10 3 "Yes"))
          (of_row [ ("Story_ID", CStr "ENG-2");
                    ("Original_Estimate_Hours", CNum 5);
                    ("Efficiency_Gained_Hours", CNum 0) ]).


End Scenario.

(** *** Reading a frame row by row *)

(** Row [i] has text [v] in column [c]. *)
Definition has_text (df : DataFrame) (i : nat) (c v : string) : Prop :=
  at_ df i c = Some (CStr v).

(** Row [i] has a number that is zero in column [c]. *)
Definition has_zero (df : DataFrame) (i : nat) (c : string) : Prop :=
  exists x, at_ df i c = Some (CNum x) /\ PrimFloat.is_zero x = true.

(** The entry invariant "no gain without the assistant", on every row. *)
Definition no_gain_without_copilot (df : DataFrame) : Prop :=
  forall i, has_text df i "Copilot_Used" "No" ->
            has_zero df i "Efficiency_Gained_Hours".

(** A stored sheet in the canonical layout. *)
Definition canonical (df : DataFrame) : Prop :=
  columns df = Config.DB_COLUMNS.

(** *** Numbers *)



(** *** The assistant-used rate read as leaving blank rows out

    The rate computed on the rows whose [Copilot_Used] is not blank. *)

Definition is_blank (c : cell) : bool :=
  match c with CNum x => PrimFloat.is_nan x | _ => false end.

Definition without_blank (df : DataFrame) (c : string) : DataFrame :=
  match lookup_col c (cols df) with
  | Some s => getitem_mask df (map (fun x => negb (is_blank x)) s)
  | None => df
  end.

(** A blank [Copilot_Used] read as "No". *)
Definition blank_as_no (c : cell) : cell :=
  if is_blank c then CStr "No" else c.

(** *** Team names *)

Fixpoint contains (c : ascii) (s : string) : bool :=
  match s with
  | EmptyString => false
  | String d s' => Ascii.eqb d c || contains c s'
  end.

(** *** The ratio of sums, [sum(gained) / sum(estimate) * 100], for
    comparison with the mean of the per-row ratios. *)
Definition ratio_of_sums (df : DataFrame) : result float :=
  gained ← getitem df "Efficiency_Gained_Hours";
  estimate ← getitem df "Original_Estimate_Hours";
  Ok (Pandas.sum (map num_value gained) / Pandas.sum (map num_value estimate) * 100)%float.

(** Running a [result] computation one bind at a time. *)
Ltac run := cbn [mbind result_bind Py.bind read_excel negb andb fst snd].

(* ===================================================================== *)
(** ** Properties of [components/utils.py]                                *)
(* ===================================================================== *)

(** C10: [verify_engineer_access] answers [True] whatever it is given, so
    two calls that differ only in the token answer alike. *)
Theorem verify_engineer_access_always_true :
  (forall developer_name team_name provided_token,
      Utils.verify_engineer_access developer_name team_name provided_token = true)
  /\ (forall developer_name team_name token1 token2,
      Utils.verify_engineer_access developer_name team_name token1
      = Utils.verify_engineer_access developer_name team_name token2).
Proof. split; reflexivity. Qed.

Lemma length_append (s t : string) :
  String.length (s +:+ t) = String.length s + String.length t.
Proof.
  induction s as [|c s IH]; [reflexivity|].
  change (S (String.length (s +:+ t)) = S (String.length s + String.length t)).
  by rewrite IH.
Qed.

Lemma append_inv_tail (s1 s2 t : string) :
  s1 +:+ t = s2 +:+ t -> s1 = s2.
Proof.
  revert s2; induction s1 as [|c s1 IH]; intros [|d s2] H.
  - reflexivity.
  - exfalso. apply (f_equal String.length) in H.
    rewrite (length_append (String d s2) t) in H.
    change ("" +:+ t) with t in H. simpl in H. lia.
  - exfalso. apply (f_equal String.length) in H.
    rewrite (length_append (String c s1) t) in H.
    change ("" +:+ t) with t in H. simpl in H. lia.
  - change (String c (s1 +:+ t) = String d (s2 +:+ t)) in H.
    injection H as -> H. f_equal. by apply IH.
Qed.

Lemma append_inv_head (p s1 s2 : string) :
  p +:+ s1 = p +:+ s2 -> s1 = s2.
Proof.
  induction p as [|c p IH]; intros H; [exact H|].
  change (String c (p +:+ s1) = String c (p +:+ s2)) in H.
  injection H as H. by apply IH.
Qed.

Lemma replace_space_inj (a b : string) :
  contains "_" a = false -> contains "_" b = false ->
  Utils.replace " " "_" a = Utils.replace " " "_" b -> a = b.
Proof.
  revert b; induction a as [|c a IH]; intros [|d b] Ha Hb H;
    simpl in *; try discriminate; [reflexivity|].
  apply orb_false_iff in Ha as [Hc Ha], Hb as [Hd Hb].
  injection H as Hcd H.
  f_equal; [|by apply IH].
  apply Ascii.eqb_neq in Hc, Hd.
  destruct (Ascii.eqb_spec c " ") as [->|?], (Ascii.eqb_spec d " ") as [->|?];
    congruence.
Qed.

(** C9 (as the code has it): the partition key is the team name with every
    space replaced by an underscore, between a fixed prefix and suffix; on
    team names free of underscores distinct names get distinct keys. *)
Theorem get_team_excel_file_injective_without_underscore (a b : string) :
  contains "_" a = false -> contains "_" b = false ->
  Utils.get_team_excel_file a = Utils.get_team_excel_file b -> a = b.
Proof.
  intros Ha Hb H. unfold Utils.get_team_excel_file in H.
  apply append_inv_head, append_inv_tail in H.
  by apply replace_space_inj.
Qed.

Lemma get_team_excel_file_injective_witness :
  Utils.get_team_excel_file "Platform Team" <> Utils.get_team_excel_file "Data Team".
Proof.
  intros H.
  apply (get_team_excel_file_injective_without_underscore
           "Platform Team" "Data Team") in H; [discriminate H | reflexivity..].
Defined.

(** C9, the collision: a space and an underscore in the same place give two
    team names one key. *)
Lemma get_team_excel_file_collision :
  "Platform Team" <> "Platform_Team"
  /\ Utils.get_team_excel_file "Platform Team"
     = Utils.get_team_excel_file "Platform_Team".
Proof. split; [discriminate | reflexivity]. Qed.

(* ===================================================================== *)
(** ** The "Average Efficiency" metric                                    *)
(* ===================================================================== *)


(** The per-team statistic of [_aggregate_team_data] is the same number. *)
Lemma team_stats_avg_efficiency (df : DataFrame) (st : AdminDashboardPage.team_stat) :
  AdminDashboardPage.team_stats_of df = Ok st ->
  AdminDashboardPage.avg_efficiency df = Ok (AdminDashboardPage.stat_avg_efficiency st).
Proof.
  unfold AdminDashboardPage.team_stats_of, AdminDashboardPage.avg_efficiency.
  destruct (getitem df "Efficiency_Gained_Hours") as [g|]; simpl; [|discriminate].
  destruct (getitem df "Original_Estimate_Hours") as [e|]; simpl; [|discriminate].
  destruct (truediv g e) as [r|]; simpl; [|discriminate].
  destruct (getitem df "Copilot_Used") as [u|]; simpl; [|discriminate].
  by intros [= <-].
Qed.

(** On the scenario the ratio of the sums is 3/15, that is 20%. *)
Lemma ratio_of_sums_scenario : ratio_of_sums Scenario.team_df = Ok 20%float.
Proof. vm_compute. reflexivity. Qed.


(* ===================================================================== *)
(** ** Facts about frames                                                 *)
(* ===================================================================== *)

Section frames.

Implicit Types (df : DataFrame) (l : list (string * Series)) (c k : string).
Implicit Types (s : Series) (names : list string).

Lemma has_column_lookup df c :
  has_column df c = match lookup_col c (cols df) with Some _ => true | None => false end.
Proof.
  unfold has_column, columns. induction (cols df) as [|[k s] l IH]; simpl; [done|].
  rewrite (String.eqb_sym c k). by destruct (String.eqb k c).
Qed.

Lemma has_column_columns df1 df2 c :
  columns df1 = columns df2 -> has_column df1 c = has_column df2 c.
Proof. unfold has_column. by intros ->. Qed.

Lemma lookup_replace_col l c k s :
  lookup_col c (replace_col k s l)
  = if String.eqb k c
    then match lookup_col c l with Some _ => Some s | None => None end
    else lookup_col c l.
Proof.
  induction l as [|[k' s'] l IH]; simpl; [by destruct (String.eqb k c)|].
  destruct (String.eqb_spec k' k) as [->|Hk]; simpl.
  - by destruct (String.eqb k c).
  - destruct (String.eqb_spec k' c) as [->|Hc].
    + by apply String.eqb_neq in Hk as Hk'; rewrite String.eqb_sym, Hk'.
    + exact IH.
Qed.

Lemma lookup_app_one l c k s :
  lookup_col c (l ++ [(k, s)])
  = match lookup_col c l with
    | Some x => Some x
    | None => if String.eqb k c then Some s else None
    end.
Proof.
  induction l as [|[k' s'] l IH]; simpl; [done|].
  by destruct (String.eqb k' c).
Qed.

Lemma map_fst_replace_col l k s : map fst (replace_col k s l) = map fst l.
Proof.
  induction l as [|[k' s'] l IH]; simpl; [done|].
  destruct (String.eqb k' k); simpl; by rewrite ?IH.
Qed.

Lemma lookup_setitem df c k s :
  lookup_col c (cols (setitem df k s))
  = if String.eqb k c then Some s else lookup_col c (cols df).
Proof.
  unfold setitem. rewrite has_column_lookup.
  destruct (lookup_col k (cols df)) as [s0|] eqn:Hk; simpl.
  - rewrite lookup_replace_col.
    destruct (String.eqb_spec k c) as [<-|]; [by rewrite Hk | done].
  - rewrite lookup_app_one.
    destruct (String.eqb_spec k c) as [<-|]; [by rewrite Hk|].
    by destruct (lookup_col c (cols df)).
Qed.

Lemma nrows_setitem df k s : nrows (setitem df k s) = nrows df.
Proof. unfold setitem. by destruct (has_column df k). Qed.

Lemma getitem_lookup df c s :
  getitem df c = Ok s <-> lookup_col c (cols df) = Some s.
Proof.
  unfold getitem. destruct (lookup_col c (cols df)); split; congruence.
Qed.

Lemma lookup_drop df df' c k :
  drop df k = Ok df' ->
  nrows df' = nrows df
  /\ lookup_col c (cols df')
     = if String.eqb k c then None else lookup_col c (cols df).
Proof.
  unfold drop. destruct (has_column df k); [|discriminate].
  intros [= <-]; simpl. split; [done|].
  induction (cols df) as [|[k' s'] l IH]; simpl; [by destruct (String.eqb k c)|].
  destruct (String.eqb_spec k' k) as [->|Hk]; simpl; [|rewrite IH].
  - rewrite IH. by destruct (String.eqb k c).
  - destruct (String.eqb_spec k' c) as [->|]; [|done].
    apply not_eq_sym, String.eqb_neq in Hk. by rewrite Hk.
Qed.

(** The loop over the required columns keeps what is there and fills what
    is missing with empty text. *)
Lemma ensure_columns_spec names df :
  nrows (ensure_columns names df) = nrows df
  /\ forall c,
      lookup_col c (cols (ensure_columns names df))
      = match lookup_col c (cols df) with
        | Some s => Some s
        | None => if existsb (String.eqb c) names
                  then Some (repeat (CStr "") (nrows df)) else None
        end.
Proof.
  unfold ensure_columns. revert df.
  induction names as [|k names IH]; intros df; simpl.
  - split; [done|]. intros c. by destruct (lookup_col c (cols df)).
  - destruct (IH (if has_column df k then df else setitem_scalar df k (CStr "")))
      as [Hn Hl].
    assert (Hrows : nrows (if has_column df k then df
                           else setitem_scalar df k (CStr "")) = nrows df).
    { destruct (has_column df k); [done | apply nrows_setitem]. }
    split; [by rewrite Hn|].
    intros c. rewrite Hl, Hrows. rewrite has_column_lookup.
    destruct (lookup_col k (cols df)) as [sk|] eqn:Hk.
    + destruct (lookup_col c (cols df)) eqn:Hc; [done|].
      destruct (String.eqb_spec c k) as [->|]; [congruence | done].
    + unfold setitem_scalar. rewrite lookup_setitem.
      destruct (String.eqb_spec k c) as [<-|Hkc].
      * by rewrite Hk, String.eqb_refl.
      * destruct (lookup_col c (cols df)); [done|].
        apply not_eq_sym, String.eqb_neq in Hkc. by rewrite Hkc.
Qed.

Lemma select_cols_spec l names :
  (forall c, In c names -> is_Some (lookup_col c l)) ->
  exists r, select_cols l names = Ok r
            /\ map fst r = names
            /\ forall c, lookup_col c r
                         = if existsb (String.eqb c) names
                           then lookup_col c l else None.
Proof.
  induction names as [|k names IH]; intros H; simpl.
  - by exists [].
  - destruct (H k) as [s Hs]; [by left|]. rewrite Hs.
    destruct IH as (r & -> & Hf & Hl); [intros c Hc; apply H; by right|].
    exists ((k, s) :: r). simpl. split; [done|]. split; [by rewrite Hf|].
    intros c. rewrite (String.eqb_sym c k).
    destruct (String.eqb_spec k c) as [<-|]; simpl; [done | apply Hl].
Qed.


Lemma nth_error_repeat {A} (x y : A) n i :
  nth_error (repeat x n) i = Some y -> y = x.
Proof.
  revert i; induction n as [|n IH]; intros [|i]; simpl; try discriminate.
  - congruence.
  - apply IH.
Qed.

(** *** [traverse] *)


Lemma traverse_Forall {A B} (f : A -> result B) (P : B -> Prop) xs ys :
  traverse f xs = Ok ys -> (forall a b, f a = Ok b -> P b) -> Forall P ys.
Proof.
  intros H HP. revert ys H; induction xs as [|a xs IH]; intros ys; simpl.
  - intros [= <-]. constructor.
  - destruct (f a) as [b|] eqn:Hb; simpl; [|discriminate].
    destruct (traverse f xs) as [bs|]; simpl; [|discriminate].
    intros [= <-]. constructor; eauto.
Qed.

Lemma traverse_ok {A B} (f : A -> result B) xs :
  Forall (fun a => exists b, f a = Ok b) xs -> exists ys, traverse f xs = Ok ys.
Proof.
  induction 1 as [|a xs [b Hb] _ [ys IH]]; simpl; [by exists []|].
  rewrite Hb, IH. simpl. eauto.
Qed.

End frames.

(* ===================================================================== *)
(** ** The local loader                                                   *)
(* ===================================================================== *)

Section local_loader.

Variable rt : runtime.

Lemma os_path_exists_lookup (fs : DataManager.disk) (p : string) :
  DataManager.os_path_exists fs p
  = match fs !! p with Some _ => true | None => false end.
Proof.
  unfold DataManager.os_path_exists. destruct (fs !! p).
  - apply bool_decide_eq_true_2. eauto.
  - apply bool_decide_eq_false_2. by intros [? ?].
Qed.

Lemma stamps_are_datetimes (week stamps : Series) :
  to_datetime rt week = Ok stamps ->
  Forall (fun c => (exists t, c = CTime t) \/ c = CNaT) stamps.
Proof.
  intros H. apply (traverse_Forall _ _ _ _ H).
  intros a b. unfold to_datetime_cell.
  destruct a as [x|s|t|d|]; try (intros [= <-]; eauto).
  - destruct (PrimFloat.is_nan x); [intros [= <-]; eauto|].
    destruct (datetime_of_number rt x); intros [= <-]; eauto.
  - destruct (parse_datetime rt s); intros [= <-]; eauto.
Qed.

Lemma dt_date_ok (stamps : Series) :
  Forall (fun c => (exists t, c = CTime t) \/ c = CNaT) stamps ->
  exists starts, dt_date stamps = Ok starts
    /\ Forall (fun c => (exists d, c = CDate d) \/ c = CNaT) starts.
Proof.
  intros H. destruct (traverse_ok dt_date_cell stamps) as [starts Hs].
  { eapply Forall_impl; [exact H|]. intros c [[t ->]| ->]; simpl; eauto. }
  exists starts. split; [exact Hs|].
  apply (traverse_Forall _ _ _ _ Hs).
  intros a b. destruct a; simpl; intros [= <-]; eauto.
Qed.

Lemma add_days_ok (starts : Series) (n : Z) :
  Forall (fun c => (exists d, c = CDate d) \/ c = CNaT) starts ->
  exists ends, add_days starts n = Ok ends.
Proof.
  intros H. apply traverse_ok.
  eapply Forall_impl; [exact H|]. intros c [[d ->]| ->]; simpl; eauto.
Qed.

(** What the conversion of the old layout does to a sheet that has [Week]
    and no [Week_Start]. *)
Lemma local_convert_legacy (df : DataFrame) (week stamps : Series) :
  has_column df "Week" = true -> has_column df "Week_Start" = false ->
  lookup_col "Week" (cols df) = Some week ->
  to_datetime rt week = Ok stamps ->
  exists starts ends df1,
    dt_date stamps = Ok starts /\ add_days starts 6 = Ok ends
    /\ DataManager.convert_old_format rt df = Ok df1
    /\ nrows df1 = nrows df
    /\ forall c, lookup_col c (cols df1)
                 = if String.eqb "Week" c then None
                   else if String.eqb "Week_End" c then Some ends
                   else if String.eqb "Week_Start" c then Some starts
                   else lookup_col c (cols df).
Proof.
  intros HW HWS Hweek Hst.
  destruct (dt_date_ok stamps) as (starts & Hstarts & Hdates);
    [by eapply stamps_are_datetimes|].
  destruct (add_days_ok starts 6 Hdates) as [ends Hends].
  set (df_a := setitem df "Week_Start" starts).
  set (df_b := setitem df_a "Week_End" ends).
  assert (Hb : forall c, lookup_col c (cols df_b)
                 = if String.eqb "Week_End" c then Some ends
                   else if String.eqb "Week_Start" c then Some starts
                   else lookup_col c (cols df)).
  { intros c. unfold df_b, df_a. by rewrite !lookup_setitem. }
  assert (Hdrop : exists df1, drop df_b "Week" = Ok df1) .
  { unfold drop. rewrite has_column_lookup, Hb. simpl. rewrite Hweek. eauto. }
  destruct Hdrop as [df1 Hdrop].
  exists starts, ends, df1. split; [done|]. split; [done|]. split.
  - unfold DataManager.convert_old_format. rewrite HW, HWS. simpl.
    apply getitem_lookup in Hweek. rewrite Hweek. simpl.
    rewrite Hst. simpl. rewrite Hstarts. simpl.
    assert (Hg : getitem (setitem df "Week_Start" starts) "Week_Start" = Ok starts).
    { apply getitem_lookup. by rewrite lookup_setitem. }
    rewrite Hg. simpl. rewrite Hends. simpl. exact Hdrop.
  - destruct (lookup_drop _ _ "Week" "Week" Hdrop) as [Hn _].
    split.
    + rewrite Hn. unfold df_b, df_a. by rewrite !nrows_setitem.
    + intros c. destruct (lookup_drop _ _ c "Week" Hdrop) as [_ ->].
      rewrite Hb. done.
Qed.

(** Whatever the layout, a successful conversion keeps the rows and every
    column other than the three week columns. *)
Lemma local_convert_other (df df1 : DataFrame) :
  DataManager.convert_old_format rt df = Ok df1 ->
  nrows df1 = nrows df
  /\ forall c, c <> "Week" -> c <> "Week_End" -> c <> "Week_Start" ->
               lookup_col c (cols df1) = lookup_col c (cols df).
Proof.
  unfold DataManager.convert_old_format.
  destruct (has_column df "Week" && negb (has_column df "Week_Start")) eqn:Hcond.
  - apply andb_true_iff in Hcond as [HW HWS]. apply negb_true_iff in HWS.
    destruct (getitem df "Week") as [week|] eqn:Hweek; simpl; [|discriminate].
    destruct (to_datetime rt week) as [stamps|] eqn:Hst; simpl; [|discriminate].
    apply getitem_lookup in Hweek.
    destruct (local_convert_legacy df week stamps HW HWS Hweek Hst)
      as (starts & ends & df1' & _ & _ & Hconv & Hn & Hl).
    intros H.
    assert (df1' = df1) as ->.
    { unfold DataManager.convert_old_format in Hconv.
      rewrite HW, HWS in Hconv. simpl in Hconv.
      apply getitem_lookup in Hweek. rewrite Hweek in Hconv. simpl in Hconv.
      rewrite Hst in Hconv. simpl in Hconv. congruence. }
    split; [done|]. intros c H1 H2 H3. rewrite Hl.
    assert (String.eqb "Week" c = false) as ->
      by (apply String.eqb_neq; congruence).
    assert (String.eqb "Week_End" c = false) as ->
      by (apply String.eqb_neq; congruence).
    assert (String.eqb "Week_Start" c = false) as ->
      by (apply String.eqb_neq; congruence).
    done.
  - intros [= <-]. done.
Qed.

(** A sheet that was read and converted comes back with the canonical
    columns: each is the sheet's own column when it has one, and a column
    of empty text when it has not. *)
Lemma local_load_read (fs : DataManager.disk) (path : string) (df0 df1 : DataFrame) :
  fs !! path = Some (Workbook df0) ->
  DataManager.convert_old_format rt df0 = Ok df1 ->
  exists out,
    DataManager.load_excel_data rt fs path = (out, [])
    /\ columns out = Config.DB_COLUMNS
    /\ nrows out = nrows df1
    /\ forall c, lookup_col c (cols out)
                 = if existsb (String.eqb c) Config.DB_COLUMNS
                   then match lookup_col c (cols df1) with
                        | Some s => Some s
                        | None => Some (repeat (CStr "") (nrows df1))
                        end
                   else None.
Proof.
  intros Hfs Hconv.
  destruct (ensure_columns_spec Config.DB_COLUMNS df1) as [Hn Hl].
  destruct (select_cols_spec (cols (ensure_columns Config.DB_COLUMNS df1))
              Config.DB_COLUMNS) as (r & Hsel & Hfst & Hr).
  { intros c Hc. rewrite Hl.
    destruct (lookup_col c (cols df1)); [eauto|].
    assert (existsb (String.eqb c) Config.DB_COLUMNS = true) as ->; [|eauto].
    apply existsb_exists. exists c. split; [done | apply String.eqb_refl]. }
  exists (mkDataFrame (nrows (ensure_columns Config.DB_COLUMNS df1)) r).
  split; [|split; [exact Hfst | split; [exact Hn|]]].
  - unfold DataManager.load_excel_data, DataManager.load_excel_data_try,
      DataManager.read_excel_path.
    rewrite os_path_exists_lookup, Hfs. run. rewrite Hconv. run.
    unfold select. rewrite Hsel. done.
  - intros c. cbn [cols]. rewrite Hr, Hl.
    destruct (existsb (String.eqb c) Config.DB_COLUMNS); [|done].
    by destruct (lookup_col c (cols df1)).
Qed.

(** The local loader always answers with the canonical columns, in the
    canonical order. *)
Lemma local_load_columns (fs : DataManager.disk) (path : string) :
  columns (fst (DataManager.load_excel_data rt fs path)) = Config.DB_COLUMNS.
Proof.
  destruct (fs !! path) as [[df0|e]|] eqn:Hfs.
  - destruct (DataManager.convert_old_format rt df0) as [df1|e] eqn:Hconv.
    + destruct (local_load_read fs path df0 df1 Hfs Hconv) as (out & -> & Hc & _).
      exact Hc.
    + unfold DataManager.load_excel_data, DataManager.load_excel_data_try,
        DataManager.read_excel_path.
      rewrite os_path_exists_lookup, Hfs. run. rewrite Hconv. done.
  - unfold DataManager.load_excel_data, DataManager.load_excel_data_try,
      DataManager.read_excel_path.
    rewrite os_path_exists_lookup, Hfs. done.
  - unfold DataManager.load_excel_data.
    rewrite os_path_exists_lookup, Hfs. done.
Qed.

End local_loader.

(* ===================================================================== *)
(** ** The S3 loader                                                      *)
(* ===================================================================== *)

Lemma s3_expected_columns :
  columns S3DataManager.create_empty_dataframe = Config.DB_COLUMNS.
Proof. reflexivity. Qed.

Lemma s3_file_exists_lookup (b : S3DataManager.bucket) (key : string) :
  S3DataManager.file_exists b key
  = match b !! key with Some _ => true | None => false end.
Proof.
  unfold S3DataManager.file_exists, S3DataManager.head_object.
  by destruct (b !! key).
Qed.

(** The S3 conversion never fails; it copies [Week] into the two new
    columns and leaves every other column, [Week] included. *)
Lemma s3_convert_spec (df : DataFrame) :
  exists df1,
    S3DataManager.convert_old_format df = Ok df1
    /\ nrows df1 = nrows df
    /\ forall c, lookup_col c (cols df1)
                 = if has_column df "Week" && negb (has_column df "Week_Start")
                   then if String.eqb "Week_End" c then lookup_col "Week" (cols df)
                        else if String.eqb "Week_Start" c
                             then lookup_col "Week" (cols df)
                             else lookup_col c (cols df)
                   else lookup_col c (cols df).
Proof.
  unfold S3DataManager.convert_old_format.
  destruct (has_column df "Week" && negb (has_column df "Week_Start")) eqn:Hcond;
    [|by exists df].
  apply andb_true_iff in Hcond as [HW HWS].
  rewrite has_column_lookup in HW.
  destruct (lookup_col "Week" (cols df)) as [week|] eqn:Hweek; [|discriminate].
  assert (Hg : getitem df "Week" = Ok week) by by apply getitem_lookup.
  assert (Hg' : getitem (setitem df "Week_Start" week) "Week" = Ok week).
  { apply getitem_lookup. by rewrite lookup_setitem. }
  rewrite Hg. run. rewrite Hg'. run.
  eexists. split; [reflexivity|]. split; [by rewrite !nrows_setitem|].
  intros c. by rewrite !lookup_setitem.
Qed.

(** A workbook that was read comes back as the converted sheet with the
    missing required columns added at the end: no selection, no reordering. *)
Lemma s3_load_read (b : S3DataManager.bucket) (key : string) (df0 : DataFrame) :
  b !! key = Some (Workbook df0) ->
  exists df1,
    S3DataManager.convert_old_format df0 = Ok df1
    /\ fst (S3DataManager.load_excel_data b key)
       = ensure_columns Config.DB_COLUMNS df1.
Proof.
  intros Hb. destruct (s3_convert_spec df0) as (df1 & Hconv & _).
  exists df1. split; [done|].
  unfold S3DataManager.load_excel_data, S3DataManager.load_excel_data_try,
    S3DataManager.get_object.
  rewrite s3_file_exists_lookup, Hb. run. rewrite Hconv. run.
  by rewrite s3_expected_columns.
Qed.

Lemma s3_load_missing (b : S3DataManager.bucket) (key : string) :
  b !! key = None ->
  fst (S3DataManager.load_excel_data b key) = S3DataManager.create_empty_dataframe.
Proof.
  intros Hb.
  unfold S3DataManager.load_excel_data, S3DataManager.load_excel_data_try.
  by rewrite s3_file_exists_lookup, Hb.
Qed.

Lemma s3_load_unreadable (b : S3DataManager.bucket) (key : string) (e : exn) :
  b !! key = Some (Unreadable e) ->
  fst (S3DataManager.load_excel_data b key) = S3DataManager.create_empty_dataframe.
Proof.
  intros Hb.
  unfold S3DataManager.load_excel_data, S3DataManager.load_excel_data_try,
    S3DataManager.get_object.
  rewrite s3_file_exists_lookup, Hb. run. by destruct (is_client_error e).
Qed.

(* ===================================================================== *)
(** ** Missing and unreadable files                                       *)
(* ===================================================================== *)

Lemma local_load_missing_or_unreadable (rt : runtime) (fs : DataManager.disk)
    (path : string) :
  (fs !! path = None ->
     DataManager.load_excel_data rt fs path
     = (DataManager.create_empty_dataframe, []))
  /\ (forall e, fs !! path = Some (Unreadable e) ->
        DataManager.load_excel_data rt fs path
        = (DataManager.create_empty_dataframe,
           ["Error loading " +:+ path +:+ ": " +:+ Py.str e])).
Proof.
  split.
  - intros Hfs. unfold DataManager.load_excel_data.
    by rewrite os_path_exists_lookup, Hfs.
  - intros e Hfs.
    unfold DataManager.load_excel_data, DataManager.load_excel_data_try,
      DataManager.read_excel_path.
    by rewrite os_path_exists_lookup, Hfs.
Qed.

(** C7: [DataManager.load_excel_data] always returns a frame.  For a path
    with no file it is the empty canonical frame and nothing is printed; for
    a file [pd.read_excel] cannot read it is the empty canonical frame and
    one line reports the error; and whenever the body of the [try] raises,
    the caller still gets the empty canonical frame, which has no rows. *)
Theorem load_excel_data_recovers (rt : runtime) (fs : DataManager.disk) (path : string) :
  (fs !! path = None ->
     DataManager.load_excel_data rt fs path
     = (DataManager.create_empty_dataframe, []))
  /\ (forall e, fs !! path = Some (Unreadable e) ->
        DataManager.load_excel_data rt fs path
        = (DataManager.create_empty_dataframe,
           ["Error loading " +:+ path +:+ ": " +:+ Py.str e]))
  /\ (forall e, DataManager.load_excel_data_try rt fs path = Raise e ->
        fst (DataManager.load_excel_data rt fs path)
        = DataManager.create_empty_dataframe)
  /\ len DataManager.create_empty_dataframe = 0.
Proof.
  split; [|split; [|split]].
  - apply local_load_missing_or_unreadable.
  - apply local_load_missing_or_unreadable.
  - intros e He. unfold DataManager.load_excel_data. rewrite He.
    by destruct (negb (DataManager.os_path_exists fs path)).
  - reflexivity.
Qed.

Lemma load_excel_data_recovers_witness :
  DataManager.load_excel_data Scenario.rt
    {[ "efficiency_data_Platform_Team.xlsx" :=
         Unreadable (Exn ValueError "File is not a zip file") ]}
    "efficiency_data_Platform_Team.xlsx"
  = (DataManager.create_empty_dataframe,
     ["Error loading efficiency_data_Platform_Team.xlsx: File is not a zip file"])
  /\ DataManager.load_excel_data Scenario.rt ∅ "efficiency_data_Platform_Team.xlsx"
     = (DataManager.create_empty_dataframe, []).
Proof.
  split.
  - exact (proj1 (proj2 (load_excel_data_recovers Scenario.rt
                           {[ "efficiency_data_Platform_Team.xlsx" :=
                                Unreadable (Exn ValueError "File is not a zip file") ]}
                           "efficiency_data_Platform_Team.xlsx"))
             (Exn ValueError "File is not a zip file") eq_refl).
  - exact (proj1 (load_excel_data_recovers Scenario.rt ∅
                    "efficiency_data_Platform_Team.xlsx") eq_refl).
Defined.

(* ===================================================================== *)
(** ** The old single-week layout                                         *)
(* ===================================================================== *)




(* ===================================================================== *)
(** ** The canonical column set                                           *)
(* ===================================================================== *)


(* ===================================================================== *)
(** ** The two backends side by side                                      *)
(* ===================================================================== *)









(* ===================================================================== *)
(** ** No gain without the assistant                                      *)
(* ===================================================================== *)

Lemma lookup_empty_frame (names : list string) (c : string) (s : Series) :
  lookup_col c (cols (empty_frame names)) = Some s -> s = [].
Proof.
  unfold empty_frame. cbn [cols].
  induction names as [|k names IH]; cbn [map lookup_col]; [discriminate|].
  destruct (String.eqb k c); [congruence | exact IH].
Qed.

Lemma empty_frame_no_gain (names : list string) :
  no_gain_without_copilot (empty_frame names).
Proof.
  intros i H. unfold has_text, at_ in H.
  destruct (lookup_col "Copilot_Used" (cols (empty_frame names))) as [s|] eqn:Hs;
    [|discriminate].
  apply lookup_empty_frame in Hs as ->. by destruct i.
Qed.

(** A frame whose two columns are those of [df0], or empty text where
    [df0] has none, inherits the invariant from [df0]. *)
Lemma no_gain_transfer (df0 out : DataFrame) :
  (forall c, c = "Copilot_Used" \/ c = "Efficiency_Gained_Hours" ->
     lookup_col c (cols out)
     = match lookup_col c (cols df0) with
       | Some s => Some s
       | None => Some (repeat (CStr "") (nrows df0))
       end) ->
  no_gain_without_copilot df0 -> no_gain_without_copilot out.
Proof.
  intros Hl Hinv i Htext. unfold has_text, at_ in Htext.
  rewrite (Hl "Copilot_Used") in Htext by by left.
  destruct (lookup_col "Copilot_Used" (cols df0)) as [u|] eqn:Hu.
  - destruct (Hinv i) as (x & Hx & Hzero).
    { unfold has_text, at_. by rewrite Hu. }
    exists x. split; [|done]. unfold at_ in *.
    rewrite (Hl "Efficiency_Gained_Hours") by by right.
    by destruct (lookup_col "Efficiency_Gained_Hours" (cols df0)).
  - by apply nth_error_repeat in Htext.
Qed.

(** The entry form: with "Used Copilot?" at anything but "Yes" the hours
    saved are set to zero, and that is what [_save_entry] stores. *)
Lemma form_sets_gain_to_zero (rt : runtime) (self : EngineerInterface.t)
    (st : gmap string file) (f : EngineerInterface.form) :
  EngineerInterface.copilot_used f <> "Yes" ->
  EngineerInterface.validation_passed f = true ->
  exists row,
    fst (EngineerInterface._render_data_entry rt self st f)
      !! EngineerInterface.team_file self
    = Some (Workbook
              (concat2 (load_via rt (EngineerInterface.manager self) st
                          (EngineerInterface.team_file self))
                       (of_row row)))
    /\ In ("Efficiency_Gained_Hours", CNum 0%float) row
    /\ In ("Copilot_Used", CStr (EngineerInterface.copilot_used f)) row.
Proof.
  intros Hno Hval.
  unfold EngineerInterface._render_data_entry.
  destruct (Utils.get_week_dates (EngineerInterface.week_date f)) as [mon sun].
  rewrite Hval.
  unfold EngineerInterface._save_entry, save_via,
    DataManager.save_to_excel, S3DataManager.save_to_excel.
  assert (Hg : EngineerInterface.efficiency_gained f = 0%float).
  { unfold EngineerInterface.efficiency_gained.
    apply String.eqb_neq in Hno. by rewrite Hno. }
  rewrite Hg. eexists.
  split; [destruct (EngineerInterface.manager self); cbn [fst];
          apply lookup_insert_eq|].
  unfold EngineerInterface.new_row. split.
  - do 6 right. by left.
  - do 7 right. by left.
Qed.

(** C4 (as the code has it): the loaders keep the entry invariant, they do
    not establish it.  If in the stored sheet every entry with
    [Copilot_Used] "No" has zero [Efficiency_Gained_Hours], so has every
    entry of the loaded frame, with either backend. *)
Theorem load_preserves_no_gain_without_copilot (rt : runtime) (m : data_manager)
    (st : gmap string file) (key : string) :
  (forall df0, st !! key = Some (Workbook df0) -> no_gain_without_copilot df0) ->
  no_gain_without_copilot (load_via rt m st key).
Proof.
  intros Hst. unfold load_via. destruct m.
  - destruct (st !! key) as [[df0|e]|] eqn:Hkey.
    + destruct (DataManager.convert_old_format rt df0) as [df1|e] eqn:Hconv.
      * destruct (local_load_read rt st key df0 df1 Hkey Hconv)
          as (out & -> & _ & _ & Ho).
        destruct (local_convert_other rt df0 df1 Hconv) as [Hn Hl].
        cbn [fst]. apply (no_gain_transfer df0); [|by apply Hst].
        intros c [-> | ->]; rewrite Ho, Hn, Hl by discriminate; reflexivity.
      * unfold DataManager.load_excel_data, DataManager.load_excel_data_try,
          DataManager.read_excel_path.
        rewrite os_path_exists_lookup, Hkey. run. rewrite Hconv.
        apply empty_frame_no_gain.
    + rewrite (proj2 (local_load_missing_or_unreadable rt st key) e Hkey).
      apply empty_frame_no_gain.
    + rewrite (proj1 (local_load_missing_or_unreadable rt st key) Hkey).
      apply empty_frame_no_gain.
  - destruct (st !! key) as [[df0|e]|] eqn:Hkey.
    + destruct (s3_load_read st key df0 Hkey) as (df1 & Hconv & ->).
      destruct (s3_convert_spec df0) as (df1' & Hconv' & Hn & Hl).
      assert (df1' = df1) as -> by congruence.
      destruct (ensure_columns_spec Config.DB_COLUMNS df1) as [_ He].
      apply (no_gain_transfer df0); [|by apply Hst].
      intros c [-> | ->]; rewrite He, Hn, Hl;
        by destruct (has_column df0 "Week" && negb (has_column df0 "Week_Start")).
    + rewrite (s3_load_unreadable st key e Hkey). apply empty_frame_no_gain.
    + rewrite (s3_load_missing st key Hkey). apply empty_frame_no_gain.
Qed.

Lemma load_preserves_no_gain_witness :
  no_gain_without_copilot
    (load_via Scenario.rt LocalManager Scenario.store
       "efficiency_data_Platform_Team.xlsx").
Proof.
  apply (load_preserves_no_gain_without_copilot Scenario.rt LocalManager
           Scenario.store "efficiency_data_Platform_Team.xlsx").
  intros df0 H. vm_compute in H. injection H as <-.
  intros [|[|i]] Hi; vm_compute in Hi; try discriminate Hi.
  - exists 0%float. split; reflexivity.
  - destruct i; discriminate Hi.
Defined.

(** C4, where the claim fails: the stored row of the old sheet has
    [Copilot_Used] "No" and half an hour gained, and that is the row the
    loader returns. *)
Lemma load_keeps_gain_without_copilot :
  ~ no_gain_without_copilot
      (load_via Scenario.rt LocalManager Scenario.legacy_store
         "efficiency_data_Platform_Team.xlsx").
Proof.
  intros H. destruct (H 0) as (x & Hx & Hzero); [reflexivity|].
  vm_compute in Hx. injection Hx as <-. vm_compute in Hzero. discriminate Hzero.
Qed.

(* ===================================================================== *)
(** ** The "Copilot Usage Rate" metric                                    *)
(* ===================================================================== *)

Lemma eq_str_blank_as_no (used : Series) :
  eq_str (map blank_as_no used) "Yes" = eq_str used "Yes".
Proof.
  unfold eq_str. rewrite map_map. apply map_ext. intros c.
  unfold blank_as_no. destruct c as [x| | | |]; cbn [is_blank]; try reflexivity.
  by destruct (PrimFloat.is_nan x).
Qed.

Lemma eq_str_length (s : Series) (v : string) : length (eq_str s v) = length s.
Proof. unfold eq_str. apply length_map. Qed.

(** C5 (as the code has it): the rate is the share of rows whose
    [Copilot_Used] is the text "Yes" among all the rows of the frame, times
    100.  A row with a blank [Copilot_Used] stays in the denominator: the
    rate is the one obtained with "No" written in every blank cell. *)
Theorem copilot_usage_counts_blank_as_no (df : DataFrame) (used : Series) :
  getitem df "Copilot_Used" = Ok used ->
  AdminDashboardPage.copilot_usage df
  = Ok (mean_bool (eq_str used "Yes") * 100)%float
  /\ length (eq_str used "Yes") = length used
  /\ AdminDashboardPage.copilot_usage
       (setitem df "Copilot_Used" (map blank_as_no used))
     = AdminDashboardPage.copilot_usage df.
Proof.
  intros Hused. unfold AdminDashboardPage.copilot_usage.
  split; [by rewrite Hused|]. split; [apply eq_str_length|].
  assert (Hg : getitem (setitem df "Copilot_Used" (map blank_as_no used))
                 "Copilot_Used" = Ok (map blank_as_no used)).
  { apply getitem_lookup. by rewrite lookup_setitem. }
  rewrite Hg, Hused. run. by rewrite eq_str_blank_as_no.
Qed.

Lemma copilot_usage_counts_blank_witness :
  AdminDashboardPage.copilot_usage
    (setitem Scenario.blank_used_df "Copilot_Used"
       (map blank_as_no [CStr "Yes"; CNum nan]))
  = AdminDashboardPage.copilot_usage Scenario.blank_used_df.
Proof.
  exact (proj2 (proj2 (copilot_usage_counts_blank_as_no Scenario.blank_used_df
                         [CStr "Yes"; CNum nan] eq_refl))).
Defined.

(** C5, where the claim fails: with one "Yes" row and one blank row the
    rate shown is 50%; on the rows that are not blank it would be 100%. *)
Lemma copilot_usage_keeps_blank_rows :
  AdminDashboardPage.copilot_usage Scenario.blank_used_df = Ok 50%float
  /\ AdminDashboardPage.copilot_usage
       (without_blank Scenario.blank_used_df "Copilot_Used") = Ok 100%float
  /\ AdminDashboardPage.copilot_usage Scenario.blank_used_df
     <> AdminDashboardPage.copilot_usage
          (without_blank Scenario.blank_used_df "Copilot_Used").
Proof.
  split; [|split]; [vm_compute; reflexivity..|].
  intros H.
  apply (f_equal (fun r => match r with Ok x => (x <? 75)%float | Raise _ => false end))
    in H.
  vm_compute in H. discriminate H.
Qed.

(* ===================================================================== *)
(** ** Division by a zero estimate                                        *)
(* ===================================================================== *)

Section floats.

Implicit Types x y g e c : float.
















End floats.




(* ===================================================================== *)
(** ** Further properties: [components/utils.py]                          *)
(* ===================================================================== *)


(** X2: every date of a week has that same week: the form can be given any
    day of the week. *)
Theorem get_week_dates_same_week (d d' : date) :
  (fst (Utils.get_week_dates d) <= d' <= snd (Utils.get_week_dates d))%Z ->
  Utils.get_week_dates d' = Utils.get_week_dates d.
Proof.
  unfold Utils.get_week_dates, Utils.weekday. cbn [fst snd]. intros H.
  assert (Hm : (d' - (d' + 3) mod 7 = d - (d + 3) mod 7)%Z).
  { pose proof (Z.mod_pos_bound (d + 3) 7 ltac:(lia)) as Hb.
    pose proof (Z.mod_pos_bound (d' + 3) 7 ltac:(lia)) as Hb'.
    pose proof (Z.div_mod (d + 3) 7 ltac:(lia)) as Hd.
    pose proof (Z.div_mod (d' + 3) 7 ltac:(lia)) as Hd'.
    lia. }
  by rewrite Hm.
Qed.

Lemma get_week_dates_same_week_witness :
  Utils.get_week_dates (Scenario.monday + 4)%Z = Utils.get_week_dates Scenario.monday.
Proof.
  apply (get_week_dates_same_week Scenario.monday (Scenario.monday + 4)%Z).
  vm_compute. split; discriminate.
Defined.

Lemma replace_removes (old new : ascii) (s : string) :
  old <> new -> contains old (Utils.replace old new s) = false.
Proof.
  intros Hne. induction s as [|c s IH]; [reflexivity|].
  cbn [Utils.replace contains]. rewrite IH, orb_false_r.
  destruct (Ascii.eqb_spec c old) as [->|Hc].
  - apply Ascii.eqb_neq. congruence.
  - by apply Ascii.eqb_neq.
Qed.

Lemma contains_append (c : ascii) (s t : string) :
  contains c (s +:+ t) = contains c s || contains c t.
Proof.
  induction s as [|d s IH]; [reflexivity|].
  change (contains c (String d (s +:+ t)) = contains c (String d s) || contains c t).
  cbn [contains]. by rewrite IH, orb_assoc.
Qed.

(** X3: the file name of a team never holds a space, whatever the team
    name. *)
Theorem get_team_excel_file_has_no_space (team_name : string) :
  contains " " (Utils.get_team_excel_file team_name) = false.
Proof.
  unfold Utils.get_team_excel_file.
  rewrite !contains_append, replace_removes by discriminate. reflexivity.
Qed.

(* ===================================================================== *)
(** ** Further properties: the loaders                                    *)
(* ===================================================================== *)

(** X4: whatever is stored under the path (nothing, bytes that cannot be
    read, a sheet of any layout) the local loader answers with exactly the
    canonical columns in the canonical order. *)
Theorem local_loader_always_canonical (rt : runtime) (fs : gmap string file)
    (path : string) :
  canonical (fst (DataManager.load_excel_data rt fs path)).
Proof. apply local_load_columns. Qed.

(** X5: a sheet in the old layout with one [Week] value that
    [pd.to_datetime] refuses is lost whole: the local loader prints the
    error and returns the empty frame, the readable rows included. *)
Theorem local_load_bad_week_loses_sheet (rt : runtime) (fs : gmap string file)
    (path : string) (df : DataFrame) (week : Series) (e : exn) :
  fs !! path = Some (Workbook df) ->
  has_column df "Week" = true -> has_column df "Week_Start" = false ->
  getitem df "Week" = Ok week ->
  to_datetime rt week = Raise e ->
  DataManager.load_excel_data rt fs path
  = (DataManager.create_empty_dataframe,
     ["Error loading " +:+ path +:+ ": " +:+ Py.str e]).
Proof.
  intros Hfs HW HWS Hweek Hraise.
  unfold DataManager.load_excel_data, DataManager.load_excel_data_try,
    DataManager.read_excel_path, DataManager.convert_old_format.
  rewrite os_path_exists_lookup, Hfs. run.
  rewrite HW, HWS. run. rewrite Hweek. run. rewrite Hraise. reflexivity.
Qed.

Lemma local_load_bad_week_witness :
  DataManager.load_excel_data Scenario.rt
    {[ "old.xlsx" := Workbook (mkDataFrame 2
         [ ("Week", [CStr "2024-01-01"; CStr "next week"]);
           ("Story_ID", [CStr "ENG-1"; CStr "ENG-2"]) ]) ]}
    "old.xlsx"
  = (DataManager.create_empty_dataframe,
     ["Error loading old.xlsx: Unknown datetime string format: next week"]).
Proof.
  apply (local_load_bad_week_loses_sheet Scenario.rt _ "old.xlsx"
           (mkDataFrame 2
              [ ("Week", [CStr "2024-01-01"; CStr "next week"]);
                ("Story_ID", [CStr "ENG-1"; CStr "ENG-2"]) ])
           [CStr "2024-01-01"; CStr "next week"]
           (Exn ValueError "Unknown datetime string format: next week"));
    reflexivity.
Defined.

(** X6: from a sheet that is not in the old layout the local loader
    returns every row: each canonical column the sheet has comes back cell
    for cell, each one it lacks comes back as empty text in every row. *)
Theorem local_load_keeps_rows (rt : runtime) (fs : gmap string file)
    (path : string) (df : DataFrame) :
  fs !! path = Some (Workbook df) ->
  has_column df "Week" && negb (has_column df "Week_Start") = false ->
  nrows (fst (DataManager.load_excel_data rt fs path)) = nrows df
  /\ snd (DataManager.load_excel_data rt fs path) = []
  /\ forall c, In c Config.DB_COLUMNS ->
       lookup_col c (cols (fst (DataManager.load_excel_data rt fs path)))
       = match lookup_col c (cols df) with
         | Some s => Some s
         | None => Some (repeat (CStr "") (nrows df))
         end.
Proof.
  intros Hfs Hlegacy.
  assert (Hconv : DataManager.convert_old_format rt df = Ok df).
  { unfold DataManager.convert_old_format. by rewrite Hlegacy. }
  destruct (local_load_read rt fs path df df Hfs Hconv) as (out & -> & _ & Hn & Hl).
  cbn [fst snd]. split; [done|]. split; [done|].
  intros c Hc. rewrite Hl.
  assert (existsb (String.eqb c) Config.DB_COLUMNS = true) as ->; [|done].
  apply existsb_exists. exists c. split; [done | apply String.eqb_refl].
Qed.

Lemma local_load_keeps_rows_witness :
  nrows (fst (DataManager.load_excel_data Scenario.rt Scenario.store
                "efficiency_data_Platform_Team.xlsx")) = 2.
Proof.
  exact (proj1 (local_load_keeps_rows Scenario.rt Scenario.store
                  "efficiency_data_Platform_Team.xlsx" Scenario.team_df
                  eq_refl eq_refl)).
Defined.

Lemma s3_load_has_required_columns_aux (b : gmap string file) (key : string)
    (df : DataFrame) (c : string) :
  b !! key = Some (Workbook df) -> In c Config.DB_COLUMNS ->
  has_column (fst (S3DataManager.load_excel_data b key)) c = true.
Proof.
  intros Hb Hc. destruct (s3_load_read b key df Hb) as (df1 & _ & ->).
  destruct (ensure_columns_spec Config.DB_COLUMNS df1) as [_ He].
  rewrite has_column_lookup, He.
  destruct (lookup_col c (cols df1)); [done|].
  assert (existsb (String.eqb c) Config.DB_COLUMNS = true) as ->; [|done].
  apply existsb_exists. exists c. split; [done | apply String.eqb_refl].
Qed.



(** X8: the S3 loader recovers like the local one.  For a key with no
    object it returns the empty frame and logs at INFO level; for an object
    that cannot be read it returns the empty frame and logs one ERROR line,
    worded by whether the exception is a [ClientError]. *)
Theorem s3_load_excel_data_recovers (b : gmap string file) (key : string) :
  (b !! key = None ->
     S3DataManager.load_excel_data b key
     = (S3DataManager.create_empty_dataframe,
        [(S3DataManager.INFO,
          "File " +:+ key +:+ " doesn't exist, returning empty DataFrame")]))
  /\ (forall e, b !! key = Some (Unreadable e) ->
        S3DataManager.load_excel_data b key
        = (S3DataManager.create_empty_dataframe,
           [(S3DataManager.ERROR,
             (if is_client_error e then "Error loading data from S3: "
              else "Unexpected error loading data: ") +:+ Py.str e)])).
Proof.
  split.
  - intros Hb.
    unfold S3DataManager.load_excel_data, S3DataManager.load_excel_data_try.
    by rewrite s3_file_exists_lookup, Hb.
  - intros e Hb.
    unfold S3DataManager.load_excel_data, S3DataManager.load_excel_data_try,
      S3DataManager.get_object.
    rewrite s3_file_exists_lookup, Hb. run. by destruct (is_client_error e).
Qed.

Lemma s3_load_excel_data_recovers_witness :
  S3DataManager.load_excel_data ∅ "efficiency_data_Platform_Team.xlsx"
  = (S3DataManager.create_empty_dataframe,
     [(S3DataManager.INFO,
       "File efficiency_data_Platform_Team.xlsx doesn't exist, returning empty DataFrame")]).
Proof.
  exact (proj1 (s3_load_excel_data_recovers ∅ "efficiency_data_Platform_Team.xlsx")
           eq_refl).
Defined.

(* ===================================================================== *)
(** ** Further properties: the entry form                                 *)
(* ===================================================================== *)

(** X9: the form reports every broken rule at once, one message each, and
    lets an entry through exactly when it has a story id, an estimate that
    is not [<= 0], and, if Copilot was used, at least one selected area. *)
Theorem form_validation_reports_every_broken_rule (f : EngineerInterface.form) :
  length (EngineerInterface.error_messages f)
  = (if EngineerInterface.is_empty_string (EngineerInterface.story_id f) then 1 else 0)
    + (if (EngineerInterface.original_estimate f <=? 0)%float then 1 else 0)
    + (if String.eqb (EngineerInterface.copilot_used f) "Yes"
          && (length (EngineerInterface.selected_areas f) =? 0)%nat then 1 else 0)
  /\ (EngineerInterface.validation_passed f = true <->
      EngineerInterface.story_id f <> ""
      /\ (EngineerInterface.original_estimate f <=? 0)%float = false
      /\ (EngineerInterface.copilot_used f = "Yes" ->
          EngineerInterface.selected_areas f <> [])).
Proof.
  unfold EngineerInterface.validation_passed, EngineerInterface.error_messages.
  destruct (EngineerInterface.story_id f) as [|a s] eqn:Hs;
    destruct (EngineerInterface.original_estimate f <=? 0)%float eqn:He;
    destruct (String.eqb_spec (EngineerInterface.copilot_used f) "Yes") as [Hy|Hy];
    destruct (EngineerInterface.selected_areas f) as [|x l] eqn:Ha;
    cbn [EngineerInterface.is_empty_string app length Nat.eqb andb Nat.add];
    (split; [reflexivity|]);
    (split; [try discriminate; intros _; repeat split; try done
            | intros (H1 & H2 & H3); try done; try discriminate H2;
              try (by destruct (H3 Hy))]).
Qed.

Lemma columns_concat2 (a b : DataFrame) :
  columns (concat2 a b)
  = columns a ++ List.filter (fun c => negb (has_column a c)) (columns b).
Proof.
  unfold concat2, columns at 1. cbn [cols]. rewrite map_map.
  unfold concat_col. cbn [fst]. apply map_id.
Qed.



Lemma mask_filter_eq_str (s : Series) (v : string) (c : cell) :
  In c (mask_filter (eq_str s v) s) -> c = CStr v.
Proof.
  induction s as [|x s IH]; [done|].
  change (eq_str (x :: s) v)
    with (match x with CStr t => String.eqb t v | _ => false end :: eq_str s v).
  cbn [mask_filter].
  destruct x as [?|t|?|?|]; try exact IH.
  destruct (String.eqb_spec t v) as [->|]; [|exact IH].
  intros [<-|H]; [reflexivity | by apply IH].
Qed.

Lemma lookup_getitem_mask (df : DataFrame) (mask : list bool) (c : string) :
  lookup_col c (cols (getitem_mask df mask))
  = option_map (mask_filter mask) (lookup_col c (cols df)).
Proof.
  unfold getitem_mask. cbn [cols].
  induction (cols df) as [|[k s] l IH]; [reflexivity|].
  cbn [map lookup_col fst snd]. by destruct (String.eqb k c).
Qed.

(** X11: the frame the "My Data" tab works on holds only rows whose
    [Developer_Name] is the engineer's own name. *)
Theorem engineer_df_holds_own_rows (self : EngineerInterface.t)
    (df edf : DataFrame) (i : nat) (c : cell) :
  EngineerInterface.engineer_df self df = Ok edf ->
  at_ edf i "Developer_Name" = Some c ->
  c = CStr (EngineerInterface.developer_name self).
Proof.
  unfold EngineerInterface.engineer_df.
  destruct (negb (empty df)).
  - destruct (getitem df "Developer_Name") as [names|] eqn:Hn; run; [|discriminate].
    intros [= <-]. unfold at_. rewrite lookup_getitem_mask.
    apply getitem_lookup in Hn. rewrite Hn. cbn [option_map].
    intros Hi. apply nth_error_In in Hi. by apply mask_filter_eq_str in Hi.
  - intros [= <-]. discriminate.
Qed.

Lemma engineer_df_holds_own_rows_witness :
  CStr "Grace Lee" = CStr "Grace Lee".
Proof.
  exact (engineer_df_holds_own_rows (Scenario.grace LocalManager)
           Scenario.legacy_df
           (getitem_mask Scenario.legacy_df [true]) 0 (CStr "Grace Lee")
           eq_refl eq_refl).
Defined.

(* ===================================================================== *)
(** ** Further properties: the admin dashboard                            *)
(* ===================================================================== *)

Ltac run_in H := cbn [mbind result_bind Py.bind read_excel negb andb fst snd] in H.

(** X12: when [_aggregate_team_data] completes, the frames it collected are
    the non-empty team frames in the order of the teams, the statistics
    are those of the same teams, one per frame, and each counts the rows of
    its frame. *)
Theorem aggregate_team_data_skips_empty_teams (rt : runtime) (m : data_manager)
    (st : gmap string file) (teams : list string)
    (all_data : list DataFrame)
    (team_stats : list (string * AdminDashboardPage.team_stat)) :
  AdminDashboardPage._aggregate_team_data rt m st teams = Ok (all_data, team_stats) ->
  all_data
  = List.filter (fun d => negb (empty d))
      (map (fun t => load_via rt m st (Utils.get_team_excel_file t)) teams)
  /\ map fst team_stats
     = List.filter
         (fun t => negb (empty (load_via rt m st (Utils.get_team_excel_file t))))
         teams
  /\ map (fun s => AdminDashboardPage.entries (snd s)) team_stats
     = map nrows all_data.
Proof.
  revert all_data team_stats.
  induction teams as [|t teams IH]; intros all_data team_stats.
  - intros [= <- <-]. done.
  - cbn [AdminDashboardPage._aggregate_team_data map List.filter].
    destruct (negb (empty (load_via rt m st (Utils.get_team_excel_file t)))).
    + destruct (AdminDashboardPage.team_stats_of
                  (load_via rt m st (Utils.get_team_excel_file t)))
        as [stat|] eqn:Hstat; run; [|discriminate].
      destruct (AdminDashboardPage._aggregate_team_data rt m st teams)
        as [[ds ss]|]; run; [|discriminate].
      intros [= <- <-]. destruct (IH ds ss eq_refl) as (-> & Hs & He).
      cbn [map fst snd]. rewrite Hs, He.
      split; [done|]. split; [done|]. f_equal.
      unfold AdminDashboardPage.team_stats_of in Hstat.
      destruct (getitem _ "Efficiency_Gained_Hours"); run_in Hstat; [|discriminate].
      destruct (getitem _ "Original_Estimate_Hours"); run_in Hstat; [|discriminate].
      destruct (truediv _ _); run_in Hstat; [|discriminate].
      destruct (getitem _ "Copilot_Used"); run_in Hstat; [|discriminate].
      by injection Hstat as <-.
    + apply IH.
Qed.

Lemma aggregate_team_data_witness :
  map fst [("Platform Team", AdminDashboardPage.mkStat 2 15 50)]
  = List.filter
      (fun t => negb (empty (load_via Scenario.rt LocalManager Scenario.store
                               (Utils.get_team_excel_file t))))
      ["Data Team"; "Platform Team"].
Proof.
  exact (proj1 (proj2 (aggregate_team_data_skips_empty_teams Scenario.rt
                         LocalManager Scenario.store ["Data Team"; "Platform Team"]
                         [Scenario.team_df]
                         [("Platform Team", AdminDashboardPage.mkStat 2 15 50)]
                         eq_refl))).
Defined.

(** X13: when no team has entries (no file yet, or only empty sheets) the
    admin dashboard shows its "no data" warning: nothing is computed and
    nothing raises. *)
Theorem render_dashboard_without_data (rt : runtime) (m : data_manager)
    (st : gmap string file) (teams : list string) :
  (forall t, In t teams ->
     empty (load_via rt m st (Utils.get_team_excel_file t)) = true) ->
  AdminDashboardPage.render_dashboard rt m st teams = Ok None.
Proof.
  intros H. unfold AdminDashboardPage.render_dashboard.
  assert (Hagg : AdminDashboardPage._aggregate_team_data rt m st teams = Ok ([], [])).
  { induction teams as [|t teams IH]; [reflexivity|].
    cbn [AdminDashboardPage._aggregate_team_data].
    rewrite (H t) by (by left). cbn [negb]. apply IH.
    intros t' Ht'. apply H. by right. }
  rewrite Hagg. by destruct (length teams =? 0)%nat.
Qed.

Lemma render_dashboard_without_data_witness :
  AdminDashboardPage.render_dashboard Scenario.rt S3Manager ∅
    ["Platform Team"; "Data Team"] = Ok None.
Proof.
  apply (render_dashboard_without_data Scenario.rt S3Manager ∅
           ["Platform Team"; "Data Team"]).
  intros t [<- | [<- | []]]; reflexivity.
Defined.

Lemma loaded_frame_has_required_column (rt : runtime) (m : data_manager)
    (st : gmap string file) (key c : string) :
  In c Config.DB_COLUMNS -> has_column (load_via rt m st key) c = true.
Proof.
  intros Hc.
  assert (Hin : existsb (String.eqb c) Config.DB_COLUMNS = true).
  { apply existsb_exists. exists c. split; [done | apply String.eqb_refl]. }
  destruct m; unfold load_via.
  - unfold has_column. by rewrite local_load_columns.
  - destruct (st !! key) as [[df|e]|] eqn:Hst.
    + by apply (s3_load_has_required_columns_aux st key df c Hst).
    + rewrite (s3_load_unreadable st key e Hst). exact Hin.
    + rewrite (s3_load_missing st key Hst). exact Hin.
Qed.

(** X14: on a frame that came out of either loader the "Copilot Usage
    Rate" is always computed: the column is there, and the comparison with
    "Yes" accepts any cell. *)
Theorem copilot_usage_defined_on_loaded_frame (rt : runtime) (m : data_manager)
    (st : gmap string file) (key : string) :
  exists v, AdminDashboardPage.copilot_usage (load_via rt m st key) = Ok v.
Proof.
  pose proof (loaded_frame_has_required_column rt m st key "Copilot_Used") as H.
  rewrite has_column_lookup in H. unfold AdminDashboardPage.copilot_usage, getitem.
  destruct (lookup_col "Copilot_Used" (cols (load_via rt m st key))) as [s|].
  - run. eauto.
  - discriminate H. do 7 right. by left.
Qed.

Lemma mask_filter_all_false {A} (mask : list bool) (l : list A) :
  Forall (fun b => b = false) mask -> mask_filter mask l = [].
Proof.
  intros H. revert l. induction H as [|b mask -> _ IH]; intros [|a l]; try done.
  apply IH.
Qed.

(** X15: an engineer none of whose rows are in the team file (no file yet,
    or only colleagues' entries) gets the "no entries yet" view: no metric
    is computed and nothing raises, with either manager. *)
Theorem engineer_render_without_entries (rt : runtime) (self : EngineerInterface.t)
    (st : gmap string file) :
  (forall i c,
     at_ (load_via rt (EngineerInterface.manager self) st
            (EngineerInterface.team_file self)) i "Developer_Name" = Some c ->
     c <> CStr (EngineerInterface.developer_name self)) ->
  EngineerInterface.render rt self st = Ok None.
Proof.
  intros H. unfold EngineerInterface.render, EngineerInterface.engineer_df.
  set (df := load_via rt (EngineerInterface.manager self) st
               (EngineerInterface.team_file self)) in *.
  destruct (empty df); cbn [negb]; [reflexivity|].
  pose proof (loaded_frame_has_required_column rt (EngineerInterface.manager self)
                st (EngineerInterface.team_file self) "Developer_Name") as Hc.
  fold df in Hc. rewrite has_column_lookup in Hc.
  destruct (lookup_col "Developer_Name" (cols df)) as [names|] eqn:Hn;
    [|discriminate Hc; do 3 right; by left].
  apply getitem_lookup in Hn as Hg. rewrite Hg. run.
  assert (Hmask : Forall (fun b => b = false)
                    (eq_str names (EngineerInterface.developer_name self))).
  { unfold eq_str. apply List.Forall_forall. intros b Hb.
    apply in_map_iff in Hb as (c & <- & Hin).
    apply In_nth_error in Hin as [i Hi].
    specialize (H i c). unfold at_ in H. rewrite Hn in H. specialize (H Hi).
    destruct c as [x|t|n|d|]; try reflexivity.
    apply String.eqb_neq. congruence. }
  unfold EngineerInterface._render_dashboard, empty, getitem_mask. cbn [nrows].
  by rewrite (mask_filter_all_false _ _ Hmask).
Qed.

Lemma engineer_render_without_entries_witness :
  EngineerInterface.render Scenario.rt
    (EngineerInterface.init "Alan Kay" "Platform Team" LocalManager)
    Scenario.store = Ok None.
Proof.
  apply (engineer_render_without_entries Scenario.rt
           (EngineerInterface.init "Alan Kay" "Platform Team" LocalManager)
           Scenario.store).
  intros [|[|i]] c Hi; vm_compute in Hi; try discriminate Hi.
  - injection Hi as <-. discriminate.
  - injection Hi as <-. discriminate.
  - destruct i; discriminate Hi.
Defined.

(* ===================================================================== *)
(** ** Further properties: the average over blank and missing hours       *)
(* ===================================================================== *)

Lemma object_truediv_empty_text (g : Series) (x : cell) (rest : Series) :
  exists e, object_truediv (x :: g) (CStr "" :: rest) = Raise e
            /\ exn_type e = TypeError.
Proof. destruct x; cbn [object_truediv]; eauto. Qed.

(** X16: a sheet with rows but without an [Original_Estimate_Hours] column
    loads with empty text in that column, and the "Average Efficiency"
    then raises a [TypeError]: the division meets text. *)
Theorem avg_efficiency_raises_without_estimate_column (rt : runtime)
    (fs : gmap string file) (path : string) (df : DataFrame) :
  fs !! path = Some (Workbook df) ->
  has_column df "Week" && negb (has_column df "Week_Start") = false ->
  has_column df "Original_Estimate_Hours" = false ->
  0 < nrows df ->
  (forall g, getitem df "Efficiency_Gained_Hours" = Ok g -> g <> []) ->
  exists e,
    AdminDashboardPage.avg_efficiency (fst (DataManager.load_excel_data rt fs path))
    = Raise e
    /\ exn_type e = TypeError.
Proof.
  intros Hfs Hleg HE Hn Hg.
  assert (Hconv : DataManager.convert_old_format rt df = Ok df).
  { unfold DataManager.convert_old_format. by rewrite Hleg. }
  destruct (local_load_read rt fs path df df Hfs Hconv) as (out & -> & _ & _ & Hl).
  cbn [fst]. rewrite has_column_lookup in HE.
  destruct (nrows df) as [|n] eqn:Hrows; [lia|].
  assert (HlE : getitem out "Original_Estimate_Hours"
                = Ok (CStr "" :: repeat (CStr "") n)).
  { apply getitem_lookup. rewrite Hl.
    by destruct (lookup_col "Original_Estimate_Hours" (cols df)). }
  assert (HlG : exists x g, getitem out "Efficiency_Gained_Hours" = Ok (x :: g)).
  { destruct (lookup_col "Efficiency_Gained_Hours" (cols df)) as [[|x g]|] eqn:Hgl.
    - exfalso. apply (Hg []); [|done]. by apply getitem_lookup.
    - exists x, g. apply getitem_lookup. rewrite Hl, Hgl. reflexivity.
    - exists (CStr ""), (repeat (CStr "") n).
      apply getitem_lookup. rewrite Hl, Hgl. reflexivity. }
  destruct HlG as (x & g & HlG).
  unfold AdminDashboardPage.avg_efficiency. rewrite HlG, HlE. run.
  unfold truediv. cbn [is_float64 forallb is_num]. rewrite andb_false_r.
  destruct (object_truediv_empty_text g x (repeat (CStr "") n)) as (e & -> & He).
  eauto.
Qed.

Lemma avg_efficiency_raises_witness :
  exists e,
    AdminDashboardPage.avg_efficiency
      (fst (DataManager.load_excel_data Scenario.rt
              {[ "t.xlsx" := Workbook (mkDataFrame 1
                   [ ("Story_ID", [CStr "ENG-1"]);
                     ("Efficiency_Gained_Hours", [CNum 2]) ]) ]} "t.xlsx"))
    = Raise e
    /\ exn_type e = TypeError.
Proof.
  apply (avg_efficiency_raises_without_estimate_column Scenario.rt _ "t.xlsx"
           (mkDataFrame 1 [ ("Story_ID", [CStr "ENG-1"]);
                            ("Efficiency_Gained_Hours", [CNum 2]) ]));
    try reflexivity.
  - cbn. lia.
  - intros g Hg. vm_compute in Hg. injection Hg as <-. discriminate.
Defined.

Section blank_hours.

Implicit Types x y : float.






End blank_hours.



(* ===================================================================== *)
(** ** Further properties: the combined export                            *)
(* ===================================================================== *)

Lemma nrows_fold_concat2 (frames : list DataFrame) (f : DataFrame) :
  nrows (fold_left concat2 frames f) = nrows f + list_sum (map nrows frames).
Proof.
  revert f; induction frames as [|d frames IH]; intros f.
  - cbn. lia.
  - cbn [fold_left map]. rewrite IH.
    change (list_sum (nrows d :: map nrows frames))
      with (nrows d + list_sum (map nrows frames)).
    unfold concat2. cbn [nrows]. lia.
Qed.

Lemma filter_not_in_self (l : list string) :
  List.filter (fun c => negb (existsb (String.eqb c) l)) l = [].
Proof.
  assert (H : forall l', (forall c, In c l' -> In c l) ->
              List.filter (fun c => negb (existsb (String.eqb c) l)) l' = []).
  { induction l' as [|c l' IH]; intros Hin; [reflexivity|].
    cbn [List.filter].
    assert (existsb (String.eqb c) l = true) as ->.
    { apply existsb_exists. exists c. split; [apply Hin; by left | apply String.eqb_refl]. }
    apply IH. intros c' Hc'. apply Hin. by right. }
  by apply H.
Qed.

Lemma canonical_fold_concat2 (frames : list DataFrame) (f : DataFrame) :
  canonical f -> Forall canonical frames -> canonical (fold_left concat2 frames f).
Proof.
  intros Hf Hfs. revert f Hf.
  induction Hfs as [|d frames Hd _ IH]; intros f Hf; [done|].
  cbn [fold_left]. apply IH. unfold canonical in *.
  rewrite columns_concat2. unfold has_column. rewrite Hf, Hd.
  by rewrite filter_not_in_self, app_nil_r.
Qed.

Lemma combined_data_spec (rt : runtime) (m : data_manager) (st : gmap string file)
    (teams : list string) :
  DataManagementPage.combined_data rt m st teams
  = List.filter (fun d => negb (empty d))
      (map (fun t => load_via rt m st (Utils.get_team_excel_file t)) teams).
Proof.
  induction teams as [|t teams IH]; [reflexivity|].
  cbn [DataManagementPage.combined_data map List.filter]. rewrite IH.
  by destruct (negb (empty (load_via rt m st (Utils.get_team_excel_file t)))).
Qed.

(** X18: the export section never raises.  The combined frame it offers
    has the rows of every selected team that has entries, one after the
    other: its row count, the one shown, is the sum of theirs (nothing is
    merged or dropped); with the local manager its columns are the
    canonical ones.  The warning is shown exactly when every selected team
    is empty. *)
Theorem export_concatenates_selected_teams (rt : runtime) (m : data_manager)
    (st : gmap string file) (selected_teams : list string) :
  let frames :=
    List.filter (fun d => negb (empty d))
      (map (fun t => load_via rt m st (Utils.get_team_excel_file t)) selected_teams) in
  match DataManagementPage._render_export_section rt m st selected_teams with
  | Raise _ => False
  | Ok DataManagementPage.NothingSelected => selected_teams = []
  | Ok DataManagementPage.NoData => selected_teams <> [] /\ frames = []
  | Ok (DataManagementPage.Ready combined_df entries teams) =>
      entries = nrows combined_df
      /\ nrows combined_df = list_sum (map nrows frames)
      /\ teams = length selected_teams
      /\ frames <> []
      /\ (m = LocalManager -> canonical combined_df)
  end.
Proof.
  cbv zeta. unfold DataManagementPage._render_export_section.
  rewrite combined_data_spec.
  destruct selected_teams as [|t ts]; [reflexivity|].
  cbn [length Nat.eqb].
  set (frames := List.filter _ _).
  assert (Hcan : m = LocalManager -> Forall canonical frames).
  { intros ->. apply List.Forall_forall. intros d Hd.
    apply List.filter_In in Hd as [Hd _]. apply in_map_iff in Hd as (t' & <- & _).
    apply local_load_columns. }
  destruct frames as [|f rest]; [done|].
  cbn [length Nat.eqb concat]. run.
  split; [reflexivity|]. split; [by rewrite nrows_fold_concat2|].
  split; [reflexivity|]. split; [done|].
  intros Hm. specialize (Hcan Hm). apply Forall_cons in Hcan as [Hf Hrest].
  by apply canonical_fold_concat2.
Qed.

(* ===================================================================== *)
(** ** Further properties: team setup and access routing                  *)
(* ===================================================================== *)

Lemma dict_get_teams_config_value (cfg : TeamSetupPage.teams_config) (t : string) :
  PyValue.dict_get t
    (map (fun kv => (PyValue.KStr (fst kv),
                     PyValue.VList (map TeamSetupPage.developer_value (snd kv)))) cfg)
  = option_map (fun devs => PyValue.VList (map TeamSetupPage.developer_value devs))
      (TeamSetupPage.lookup_team t cfg).
Proof.
  induction cfg as [|[k devs] cfg IH]; [reflexivity|].
  cbn [map PyValue.dict_get TeamSetupPage.lookup_team fst snd].
  by destruct (String.eqb k t).
Qed.

Lemma developers_of_developer_values (devs : list TeamSetupPage.developer) :
  App.developers_of (PyValue.VList (map TeamSetupPage.developer_value devs))
  = Ok (PyValue.VList (map (fun d => PyValue.VStr (TeamSetupPage.name d)) devs)).
Proof.
  unfold App.developers_of.
  assert (H : traverse
                (fun dev => match dev with
                            | PyValue.VDict _ => PyValue.getitem dev "name"
                            | _ => Ok dev
                            end) (map TeamSetupPage.developer_value devs)
              = Ok (map (fun d => PyValue.VStr (TeamSetupPage.name d)) devs)).
  { induction devs as [|d devs IH]; [reflexivity|].
    cbn [map traverse]. rewrite IH. reflexivity. }
  by rewrite H.
Qed.

Lemma existsb_names (devs : list TeamSetupPage.developer) (d : string) :
  existsb (fun x => PyValue.eq_str x d)
    (map (fun dv => PyValue.VStr (TeamSetupPage.name dv)) devs) = true
  <-> In d (map TeamSetupPage.name devs).
Proof.
  induction devs as [|dv devs IH]; [done|].
  cbn [map existsb PyValue.eq_str In]. rewrite orb_true_iff, IH.
  by rewrite String.eqb_eq.
Qed.

Lemma parse_engineer_link_accepts_configured_pairs_aux (params : App.query_params)
    (cfg : TeamSetupPage.teams_config) (d t : string) :
  App.parse_engineer_link params (TeamSetupPage.teams_config_value cfg) = Some (d, t)
  <-> App.param "dev" params = Some d
      /\ App.param "team" params = Some t
      /\ exists devs, TeamSetupPage.lookup_team t cfg = Some devs
                      /\ In d (map TeamSetupPage.name devs).
Proof.
  unfold App.parse_engineer_link, App.parse_engineer_link_try.
  destruct (App.param "dev" params) as [d'|]; [|split; [done | by intros [? _]]].
  destruct (App.param "team" params) as [t'|]; [|split; [done | by intros (_ & ? & _)]].
  unfold TeamSetupPage.teams_config_value, PyValue.contains, PyValue.getitem.
  rewrite dict_get_teams_config_value. run.
  destruct (TeamSetupPage.lookup_team t' cfg) as [devs|] eqn:Hteam; cbn [option_map].
  - run. rewrite developers_of_developer_values. run.
    destruct (existsb _ _) eqn:Hex.
    + apply existsb_names in Hex. split.
      * intros [= <- <-]. eauto.
      * intros ([= <-] & [= <-] & _). reflexivity.
    + split; [done|]. intros ([= <-] & [= <-] & devs' & Hd & Hin).
      rewrite Hteam in Hd. injection Hd as <-.
      apply existsb_names in Hin. congruence.
  - split; [done|]. intros ([= <-] & [= <-] & devs' & Hd & _). congruence.
Qed.

(** X19: with a configuration of the shape the admin pages build, a link
    is taken for an engineer's exactly when it carries both parameters, the
    team is configured, and the developer's name is one of the names of
    that team; the pair returned is the pair of the link. *)
Theorem parse_engineer_link_accepts_configured_pairs (params : App.query_params)
    (cfg : TeamSetupPage.teams_config) (d t : string) :
  App.parse_engineer_link params (TeamSetupPage.teams_config_value cfg) = Some (d, t)
  <-> App.param "dev" params = Some d
      /\ App.param "team" params = Some t
      /\ exists devs, TeamSetupPage.lookup_team t cfg = Some devs
                      /\ In d (map TeamSetupPage.name devs).
Proof. apply parse_engineer_link_accepts_configured_pairs_aux. Qed.

Lemma lookup_team_append_developer (cfg : TeamSetupPage.teams_config)
    (t t' : string) (dev : TeamSetupPage.developer) :
  TeamSetupPage.lookup_team t' (TeamSetupPage.append_developer t dev cfg)
  = if String.eqb t t'
    then option_map (fun devs => devs ++ [dev]) (TeamSetupPage.lookup_team t cfg)
    else TeamSetupPage.lookup_team t' cfg.
Proof.
  induction cfg as [|[k devs] cfg IH].
  - cbn. by destruct (String.eqb t t').
  - cbn [TeamSetupPage.append_developer TeamSetupPage.lookup_team].
    destruct (String.eqb_spec k t) as [->|Hk];
      cbn [TeamSetupPage.lookup_team]; rewrite ?String.eqb_refl; cbn [option_map].
    + by destruct (String.eqb t t').
    + rewrite IH. destruct (String.eqb_spec k t') as [->|Hk']; [|done].
      assert (String.eqb t t' = false) as ->
        by (apply String.eqb_neq; congruence).
      done.
Qed.

(** X20: a developer added to a configured team is routed: in the
    configuration that "Add Developer" hands to [save_teams_config], a link
    with the developer's name and the team's name is accepted; every link
    that was accepted before still is. *)
Theorem added_developer_is_routed (cfg : TeamSetupPage.teams_config)
    (team_name dev_name dev_email access_link : string) (saved : bool) :
  dev_name <> "" ->
  TeamSetupPage.lookup_team team_name cfg <> None ->
  let cfg' := fst (TeamSetupPage.add_developer cfg team_name dev_name dev_email
                     access_link saved) in
  App.parse_engineer_link [("dev", dev_name); ("team", team_name)]
    (TeamSetupPage.teams_config_value cfg') = Some (dev_name, team_name)
  /\ forall params d t,
       App.parse_engineer_link params (TeamSetupPage.teams_config_value cfg)
       = Some (d, t) ->
       App.parse_engineer_link params (TeamSetupPage.teams_config_value cfg')
       = Some (d, t).
Proof.
  intros Hname Hteam. cbv zeta. unfold TeamSetupPage.add_developer.
  destruct dev_name as [|a dev_name]; [done|].
  cbn [EngineerInterface.is_empty_string negb fst].
  set (dev := TeamSetupPage.mkDeveloper _ _ _).
  split.
  - apply parse_engineer_link_accepts_configured_pairs_aux.
    split; [reflexivity|]. split; [reflexivity|].
    rewrite lookup_team_append_developer, String.eqb_refl.
    destruct (TeamSetupPage.lookup_team team_name cfg) as [devs|]; [|done].
    exists (devs ++ [dev]). split; [reflexivity|].
    rewrite map_app. apply in_or_app. right. by left.
  - intros params d t H.
    apply parse_engineer_link_accepts_configured_pairs_aux in H
      as (Hd & Ht & devs & Hl & Hin).
    apply parse_engineer_link_accepts_configured_pairs_aux.
    split; [done|]. split; [done|].
    rewrite lookup_team_append_developer.
    destruct (String.eqb_spec team_name t) as [->|Hne].
    + rewrite Hl. exists (devs ++ [dev]). split; [reflexivity|].
      rewrite map_app. apply in_or_app. by left.
    + eauto.
Qed.

Lemma added_developer_is_routed_witness :
  App.parse_engineer_link [("dev", "Grace Lee"); ("team", "Platform Team")]
    (TeamSetupPage.teams_config_value
       (fst (TeamSetupPage.add_developer [("Platform Team", [])] "Platform Team"
               "Grace Lee" "grace@example.com"
               "http://localhost:8501/?dev=Grace%20Lee&team=Platform%20Team" true)))
  = Some ("Grace Lee", "Platform Team").
Proof.
  refine (proj1 (added_developer_is_routed [("Platform Team", [])] "Platform Team"
                   "Grace Lee" "grace@example.com"
                   "http://localhost:8501/?dev=Grace%20Lee&team=Platform%20Team"
                   true _ _)).
  - discriminate.
  - vm_compute. discriminate.
Defined.

Lemma lookup_team_none (cfg : TeamSetupPage.teams_config) (t : string) :
  TeamSetupPage.lookup_team t cfg = None <-> ~ In t (map fst cfg).
Proof.
  induction cfg as [|[k devs] cfg IH]; [split; [intros _ [] | reflexivity]|].
  cbn [TeamSetupPage.lookup_team map fst In].
  destruct (String.eqb_spec k t) as [->|Hk].
  - split; [done | intros H; exfalso; apply H; by left].
  - rewrite IH. split; [intros H [?|?]; by auto | intros H ?; apply H; by right].
Qed.

Lemma lookup_team_app_new (cfg : TeamSetupPage.teams_config) (t k : string)
    (devs : list TeamSetupPage.developer) :
  TeamSetupPage.lookup_team t (cfg ++ [(k, devs)])
  = match TeamSetupPage.lookup_team t cfg with
    | Some x => Some x
    | None => if String.eqb k t then Some devs else None
    end.
Proof.
  induction cfg as [|[k' devs'] cfg IH]; [reflexivity|].
  cbn [app TeamSetupPage.lookup_team]. by destruct (String.eqb k' t).
Qed.

(** X21: "Create Team" keeps the team names distinct and never touches
    the developers of the teams that exist: a new name gets an empty team
    at the end, a name already taken or an empty name leaves the
    configuration as it was and is reported. *)
Theorem create_team_keeps_names_distinct (cfg : TeamSetupPage.teams_config)
    (team_name : string) (saved : bool) :
  NoDup (map fst cfg) ->
  let cfg' := fst (TeamSetupPage.create_team cfg team_name saved) in
  let result := snd (TeamSetupPage.create_team cfg team_name saved) in
  NoDup (map fst cfg')
  /\ (forall t devs, TeamSetupPage.lookup_team t cfg = Some devs ->
                     TeamSetupPage.lookup_team t cfg' = Some devs)
  /\ (team_name <> "" -> TeamSetupPage.lookup_team team_name cfg = None ->
      TeamSetupPage.lookup_team team_name cfg' = Some []
      /\ result = (if saved then TeamSetupPage.Success else TeamSetupPage.SaveFailed))
  /\ (team_name <> "" -> TeamSetupPage.lookup_team team_name cfg <> None ->
      cfg' = cfg /\ result = TeamSetupPage.AlreadyExists)
  /\ (team_name = "" -> cfg' = cfg /\ result = TeamSetupPage.NameRequired).
Proof.
  intros Hnd. cbv zeta. unfold TeamSetupPage.create_team.
  destruct team_name as [|a s]; cbn [EngineerInterface.is_empty_string negb].
  - cbn [fst snd]. repeat split; try done.
  - destruct (TeamSetupPage.lookup_team (String a s) cfg) as [devs0|] eqn:Hl;
      cbn [fst snd].
    + repeat split; try done.
    + split; [|split; [|split; [|split]]]; try done.
      * rewrite map_app. cbn [map fst]. apply NoDup_app. split; [done|].
        split; [|apply NoDup_singleton].
        intros t Ht Ht'. apply list_elem_of_singleton in Ht' as ->.
        apply lookup_team_none in Hl. apply Hl. by apply list_elem_of_In.
      * intros t devs Ht. by rewrite lookup_team_app_new, Ht.
      * intros _ _. split; [|reflexivity].
        by rewrite lookup_team_app_new, Hl, String.eqb_refl.
Qed.

Lemma create_team_witness :
  NoDup (map fst (fst (TeamSetupPage.create_team
                         [("Platform Team", [])] "Data Team" true))).
Proof.
  apply (create_team_keeps_names_distinct [("Platform Team", [])] "Data Team" true).
  compute_done.
Defined.

Lemma existsb_eq_str_names (names : list string) (d : string) :
  existsb (fun x => PyValue.eq_str x d) (map PyValue.VStr names) = true
  <-> In d names.
Proof.
  induction names as [|n names IH]; [done|].
  cbn [map existsb PyValue.eq_str In]. rewrite orb_true_iff, IH.
  by rewrite String.eqb_eq.
Qed.

Lemma developers_of_plain_names (names : list string) :
  App.developers_of (PyValue.VList (map PyValue.VStr names))
  = Ok (PyValue.VList (map PyValue.VStr names)).
Proof.
  unfold App.developers_of.
  assert (H : traverse
                (fun dev => match dev with
                            | PyValue.VDict _ => PyValue.getitem dev "name"
                            | _ => Ok dev
                            end) (map PyValue.VStr names)
              = Ok (map PyValue.VStr names)).
  { induction names as [|n names IH]; [reflexivity|].
    cbn [map traverse]. rewrite IH. reflexivity. }
  by rewrite H.
Qed.

(** X22: the two older shapes of a team entry are routed the same way: a
    dict with the names under "developers", and a plain list of names.  In
    both a link to that team is accepted exactly when it carries a
    developer parameter that is one of the names. *)
Theorem parse_engineer_link_old_shapes (params : App.query_params)
    (entries : list (PyValue.key * PyValue.t)) (names : list string)
    (team_config : PyValue.t) (d t : string) :
  App.param "team" params = Some t ->
  PyValue.dict_get t entries = Some team_config ->
  team_config = PyValue.VDict
                  [(PyValue.KStr "developers", PyValue.VList (map PyValue.VStr names))]
  \/ team_config = PyValue.VList (map PyValue.VStr names) ->
  App.parse_engineer_link params (PyValue.VDict entries) = Some (d, t)
  <-> App.param "dev" params = Some d /\ In d names.
Proof.
  intros Hteam Hget Hshape.
  unfold App.parse_engineer_link, App.parse_engineer_link_try.
  rewrite Hteam.
  destruct (App.param "dev" params) as [d'|]; [|split; [done | by intros [? _]]].
  unfold PyValue.contains, PyValue.getitem. rewrite Hget. run.
  assert (Hdevs : App.developers_of team_config
                  = Ok (PyValue.VList (map PyValue.VStr names))).
  { destruct Hshape as [-> | ->]; [reflexivity | apply developers_of_plain_names]. }
  rewrite Hdevs. run.
  destruct (existsb _ _) eqn:Hex.
  - apply existsb_eq_str_names in Hex. split.
    + intros H. injection H as ->. done.
    + intros [H _]. injection H as ->. done.
  - split; [done|]. intros [H Hin]. injection H as ->.
    apply existsb_eq_str_names in Hin. congruence.
Qed.

Lemma parse_engineer_link_old_shapes_witness :
  App.parse_engineer_link [("dev", "Grace Lee"); ("team", "Platform Team")]
    (PyValue.VDict
       [(PyValue.KStr "Platform Team",
         PyValue.VList (map PyValue.VStr ["Alan Kay"; "Grace Lee"]))])
  = Some ("Grace Lee", "Platform Team").
Proof.
  exact (proj2 (parse_engineer_link_old_shapes
                  [("dev", "Grace Lee"); ("team", "Platform Team")]
                  [(PyValue.KStr "Platform Team",
                    PyValue.VList (map PyValue.VStr ["Alan Kay"; "Grace Lee"]))]
                  ["Alan Kay"; "Grace Lee"]
                  (PyValue.VList (map PyValue.VStr ["Alan Kay"; "Grace Lee"]))
                  "Grace Lee" "Platform Team" eq_refl eq_refl (or_intror eq_refl))
           (conj eq_refl (or_intror (or_introl eq_refl)))).
Defined.

Lemma export_concatenates_witness :
  match DataManagementPage._render_export_section Scenario.rt LocalManager
          Scenario.store ["Platform Team"; "Data Team"] with
  | Ok (DataManagementPage.Ready combined_df entries teams) =>
      entries = 2 /\ teams = 2 /\ canonical combined_df
  | _ => False
  end.
Proof.
  pose proof (export_concatenates_selected_teams Scenario.rt LocalManager
                Scenario.store ["Platform Team"; "Data Team"]) as H.
  cbv zeta in H.
  destruct (DataManagementPage._render_export_section Scenario.rt LocalManager
              Scenario.store ["Platform Team"; "Data Team"])
    as [[| |df n k]|] eqn:He; try (vm_compute in He; discriminate He).
  destruct H as (Hn & Hs & Hk & _ & Hc).
  split; [|split; [exact Hk | by apply Hc]].
  rewrite Hn, Hs. reflexivity.
Defined.

(* ===================================================================== *)
(** ** Further properties: the settings sheet                             *)
(* ===================================================================== *)

(** X23: the padding makes the settings frame always constructible: for any
    lists of categories, areas and mappings, however unequal, the frame is
    built without a length error, it has as many rows as the longest list,
    and each of its four columns has exactly that many cells. *)
Theorem settings_frame_is_rectangular (s : TeamSettingsManager.settings) :
  let n := Nat.max (Nat.max (length (TeamSettingsManager.categories s))
                            (length (TeamSettingsManager.efficiency_areas s)))
                   (length (TeamSettingsManager.category_efficiency_mapping s)) in
  exists df,
    TeamSettingsManager.settings_frame s = Ok df
    /\ nrows df = n
    /\ columns df = ["Categories"; "Efficiency_Areas"; "Category_Mapping"; "Mapped_Areas"]
    /\ Forall (fun p => length (snd p) = n) (cols df).
Proof.
  cbv zeta. unfold TeamSettingsManager.settings_frame.
  set (n := Nat.max _ _).
  assert (Hpad : forall l : list string,
             length l <= n ->
             length (TeamSettingsManager.text_column (l ++ repeat "" (n - length l))) = n).
  { intros l Hl. unfold TeamSettingsManager.text_column.
    rewrite length_map, length_app, repeat_length. lia. }
  assert (H1 := Hpad (TeamSettingsManager.categories s) ltac:(lia)).
  assert (H2 := Hpad (TeamSettingsManager.efficiency_areas s) ltac:(lia)).
  assert (H3 := Hpad (map fst (TeamSettingsManager.category_efficiency_mapping s))
                  ltac:(rewrite length_map; lia)).
  assert (H4 := Hpad (map (fun kv => String.concat ", " (snd kv))
                        (TeamSettingsManager.category_efficiency_mapping s))
                  ltac:(rewrite length_map; lia)).
  unfold TeamSettingsManager.frame_of_columns.
  cbn [forallb snd]. rewrite H1, H2, H3, H4, !Nat.eqb_refl. cbn [andb].
  eexists. split; [reflexivity|]. cbn [nrows cols columns map fst].
  split; [reflexivity|]. split; [reflexivity|].
  repeat constructor; cbn [snd]; assumption.
Qed.
